(** * Fractal pattern generator and phase-shift watermark codec

    A shallow embedding of the two pieces of the repository that carry an
    algorithm:

    - [generate_fractal_pattern] (tests/fractal_encoding/timing_test.py) and
      its twin [generate_audio_fractal_pattern]
      (scripts/identity/sovereign_engine.py): one-dimensional midpoint
      displacement driven by a seeded [numpy.random.RandomState];
    - [PhaseShiftEncoder] (scripts/fractal_encoding/phase_shift_encoder.py):
      [encode_audio], [apply_phase_shift], [verify_encoding] and
      [detect_fractal_pattern].

    Samples are IEEE-754 binary64 values (the kernel's primitive floats), as
    in a numpy [float64] array.  Python exceptions are an explicit error
    result.  What the scripts take from the interpreter and from numpy (the
    built-in [hash], [int(s, 16)], the random generator, the Fourier
    transform, [linspace], [corrcoef]) is an interface: the code is modelled
    over every implementation of it. *)

From Stdlib Require Import ZArith Lia List String Ascii DecimalString Floats.
From stdpp Require Import base list.

#[local] Open Scope Z_scope.

(** ** Python exceptions as an error result *)

Inductive PyError : Set :=
| ValueError
| IndexError
| OverflowError
| ZeroDivisionError.

Inductive result (A : Type) : Type :=
| Ok (a : A)
| Raise (e : PyError).

Arguments Ok {A} a.
Arguments Raise {A} e.

Definition bind {A B : Type} (r : result A) (k : A -> result B) : result B :=
  match r with
  | Ok a => k a
  | Raise e => Raise e
  end.

Notation "x <- r ;; k" := (bind r (fun x => k))
  (at level 100, r at next level, right associativity).

(** A [for] loop over a list of indices, threading the loop state and
    stopping at the first exception. *)
Fixpoint for_each {I S : Type} (body : I -> S -> result S) (l : list I) (s : S)
  : result S :=
  match l with
  | [] => Ok s
  | i :: l' => s' <- body i s ;; for_each body l' s'
  end.

(** ** Python and numpy primitives *)

Definition len {A : Type} (l : list A) : Z := Z.of_nat (length l).

(** [len(range(start, stop, step))], as CPython computes it. *)
Definition range_length (start stop step : Z) : Z :=
  if 0 <? step then
    if start <? stop then (stop - start - 1) / step + 1 else 0
  else if step <? 0 then
    if stop <? start then (start - stop - 1) / (- step) + 1 else 0
  else 0.

(** [range(start, stop, step)]; a zero step is a [ValueError]. *)
Definition py_range (start stop step : Z) : result (list Z) :=
  if step =? 0 then Raise ValueError
  else Ok (map (fun k : nat => start + Z.of_nat k * step)
               (seq 0 (Z.to_nat (range_length start stop step)))).

(** The offsets [range(0, n, c)] of a loop over chunks, for [c <> 0]. *)
Definition chunk_starts (n c : Z) : list Z :=
  map (fun k : nat => 0 + Z.of_nat k * c)
      (seq 0 (Z.to_nat (range_length 0 n c))).

(** Indexing an array with one integer: a negative index counts from the
    end, anything outside the array is an [IndexError]. *)
Definition norm_index {A : Type} (a : list A) (i : Z) : result nat :=
  let j := if i <? 0 then i + len a else i in
  if (j <? 0) || (len a <=? j) then Raise IndexError else Ok (Z.to_nat j).

Definition getitem {A : Type} (a : list A) (i : Z) : result A :=
  j <- norm_index a i ;;
  match a !! j with
  | Some x => Ok x
  | None => Raise IndexError
  end.

Definition setitem {A : Type} (a : list A) (i : Z) (v : A) : result (list A) :=
  j <- norm_index a i ;;
  Ok (<[ j := v ]> a).

(** The slice [a[lo:hi]] with both bounds given: negative bounds count from
    the end and both are clipped to the array. *)
Definition clip_bound {A : Type} (a : list A) (i : Z) : Z :=
  let j := if i <? 0 then i + len a else i in
  Z.max 0 (Z.min j (len a)).

Definition slice {A : Type} (a : list A) (lo hi : Z) : list A :=
  let l := clip_bound a lo in
  let h := clip_bound a hi in
  take (Z.to_nat (h - l)) (drop (Z.to_nat l) a).

(** [np.zeros(n)] *)
Definition np_zeros (n : Z) : result (list float) :=
  if n <? 0 then Raise ValueError
  else Ok (replicate (Z.to_nat n) 0%float).

(** [int(x)] for a float: truncation toward zero; NaN and the infinities
    have no integer value. *)
Definition py_int (x : float) : result Z :=
  match Prim2SF x with
  | S754_nan => Raise ValueError
  | S754_infinity _ => Raise OverflowError
  | S754_zero _ => Ok 0
  | S754_finite s m e =>
      let mag := Z.shiftl (Z.pos m) e in
      Ok (if s then - mag else mag)
  end.

(** The float nearest to an integer (ties to even), as when a Python [int]
    meets a [float64] in arithmetic. *)
Definition float_of_Z (z : Z) : float :=
  SF2Prim (binary_normalize prec emax z 0 false).

(** ** The interpreter and the random generator *)

(** What the generators take from the Python interpreter.  The built-in
    [hash] of a string is keyed by a secret that the interpreter draws when
    the process starts (PYTHONHASHSEED); [int(s, 16)] parses a hexadecimal
    literal or raises [ValueError]. *)
Class Python := {
  HashSecret : Type;
  py_hash : HashSecret -> string -> Z;
  py_int16 : string -> result Z
}.

(** [numpy.random.RandomState]: seeding from a 32-bit integer and one draw
    of [uniform(low, high)], which returns the sample and advances the
    generator. *)
Class NumpyRandom := {
  RandomState : Type;
  RandomState_seed : Z -> RandomState;
  uniform : RandomState -> float -> float -> float * RandomState
}.

(** [np.random.RandomState(k)] accepts [0 <= k < 2**32] only. *)
Definition new_RandomState `{NumpyRandom} (k : Z) : result RandomState :=
  if (k <? 0) || (2 ^ 32 <=? k) then Raise ValueError
  else Ok (RandomState_seed k).

Section Generator.
Context `{Py : Python} `{Rng : NumpyRandom}.

(** The state of the refinement loops: the array and the generator. *)
Definition gen_state : Type := list float * RandomState.

(** The body of the [for] loop at index [i]. *)
Definition displace (step length : Z) (scale : float) (i : Z) (st : gen_state)
  : result gen_state :=
  let '(pattern, rng) := st in
  if i + step <? length then
    a <- getitem pattern (i - step) ;;
    b <- getitem pattern (i + step) ;;
    pattern <- setitem pattern i ((a + b) / 2)%float ;;
    c <- getitem pattern i ;;
    let '(u, rng) := uniform rng (- scale)%float scale in
    pattern <- setitem pattern i (c + u)%float ;;
    Ok (pattern, rng)
  else Ok (pattern, rng).

(** One turn of the [while] loop: the [for] loop over
    [range(step, length, step * 2)]. *)
Definition refine_pass (step length : Z) (scale : float) (st : gen_state)
  : result gen_state :=
  idx <- py_range step length (step * 2) ;;
  for_each (displace step length scale) idx st.

(** [while step > 0: ...; step //= 2; scale *= 0.5], entered with a
    positive [step].  Halving a positive binary number drops its last
    digit, so the loop is structural in [step] (see [halve_positive]). *)
Fixpoint refine (step : positive) (length : Z) (scale : float) (st : gen_state)
  : result gen_state :=
  st' <- refine_pass (Z.pos step) length scale st ;;
  match step with
  | xH => Ok st'
  | xO half | xI half => refine half length (scale * 0.5)%float st'
  end.

Definition while_step (step length : Z) (scale : float) (st : gen_state)
  : result gen_state :=
  match step with
  | Z.pos p => refine p length scale st
  | _ => Ok st
  end.

(** The body shared by both generators, from [pattern = np.zeros(length)]
    to [return pattern]. *)
Definition midpoint_displacement (rng : RandomState) (length : Z)
  : result (list float) :=
  pattern <- np_zeros length ;;
  let '(u, rng) := uniform rng (-1)%float 1%float in
  pattern <- setitem pattern 0 u ;;
  let step := length / 2 in
  let scale := 1%float in
  st <- while_step step length scale (pattern, rng) ;;
  Ok (fst st).

(** tests/fractal_encoding/timing_test.py, [generate_fractal_pattern]:
    [rng = np.random.RandomState(hash(seed) % 2**32)].  The hash is the one
    of the running interpreter, whose secret is [secret]. *)
Definition generate_fractal_pattern (secret : HashSecret) (seed : string)
    (length : Z) : result (list float) :=
  rng <- new_RandomState (py_hash secret seed mod 2 ^ 32) ;;
  midpoint_displacement rng length.

(** scripts/identity/sovereign_engine.py, [generate_audio_fractal_pattern]:
    [rng = np.random.RandomState(int(fractal_seed[:8], 16) % (2**32))]. *)
Definition generate_audio_fractal_pattern (fractal_seed : string)
    (length : Z) : result (list float) :=
  k <- py_int16 (substring 0 8 fractal_seed) ;;
  rng <- new_RandomState (k mod 2 ^ 32) ;;
  midpoint_displacement rng length.

End Generator.

(** ** The numpy operations of the codec *)

(** [x // y] and [x % y] on Python integers: floor division and the
    remainder with the sign of the divisor; a zero divisor raises. *)
Definition py_floordiv (x y : Z) : result Z :=
  if y =? 0 then Raise ZeroDivisionError else Ok (x / y).

Definition py_mod (x y : Z) : result Z :=
  if y =? 0 then Raise ZeroDivisionError else Ok (x mod y).

(** A Python [int] turned into a [float] for arithmetic with one: too large
    an integer is an [OverflowError]. *)
Definition float_of_int (z : Z) : result float :=
  let f := float_of_Z z in
  if is_infinity f then Raise OverflowError else Ok f.

(** [np.maximum], which lets a NaN through, and the reduction [np.max],
    which has no value on an empty array. *)
Definition np_maximum (x y : float) : float :=
  if is_nan x then x
  else if is_nan y then y
  else if (x <? y)%float then y else x.

Definition np_max (a : list float) : result float :=
  match a with
  | [] => Raise ValueError
  | x :: a' => Ok (fold_left np_maximum a' x)
  end.

(** An elementwise binary operation on two one-dimensional arrays: equal
    lengths pair up, a one-element array is broadcast, other shapes do not
    fit. *)
Definition elementwise {A B C : Type} (f : A -> B -> C) (x : list A) (y : list B)
  : result (list C) :=
  if (length x =? length y)%nat then Ok (zip_with f x y)
  else match x, y with
       | [x0], _ => Ok (map (f x0) y)
       | _, [y0] => Ok (map (fun a => f a y0) x)
       | _, _ => Raise ValueError
       end.

(** The float constant [np.pi]. *)
Definition np_pi : float := 0x1.921fb54442d18p+1%float.

(** What the codec takes from numpy beyond elementwise float arithmetic:
    the discrete Fourier transform and its inverse on arrays of at least one
    point, the polar decomposition of a complex number, [linspace], and the
    Pearson coefficient that [corrcoef] puts at [[0, 1]] for two arrays of one
    length.  The transforms and [linspace] return arrays of the size asked
    for. *)
Class NumpySignal := {
  complex : Type;
  np_fft : list float -> list complex;
  np_ifft : list complex -> list complex;
  np_angle : complex -> float;
  np_abs : complex -> float;
  np_exp_1j : float -> complex;
  np_scale : float -> complex -> complex;
  np_real : complex -> float;
  np_linspace : float -> float -> Z -> list float;
  np_pearson : list float -> list float -> float;
  np_fft_length : forall x, length (np_fft x) = length x;
  np_ifft_length : forall x, length (np_ifft x) = length x;
  np_linspace_length : forall a b n, 0 <= n -> len (np_linspace a b n) = n
}.

(** [np.fft.fft] and [np.fft.ifft] refuse an empty array. *)
Definition fft `{NumpySignal} (x : list float) : result (list complex) :=
  match x with
  | [] => Raise ValueError
  | _ => Ok (np_fft x)
  end.

Definition ifft `{NumpySignal} (x : list complex) : result (list complex) :=
  match x with
  | [] => Raise ValueError
  | _ => Ok (np_ifft x)
  end.

(** [np.linspace(start, stop, num)]: a negative [num] is refused. *)
Definition linspace `{NumpySignal} (start stop : float) (num : Z)
  : result (list float) :=
  if num <? 0 then Raise ValueError else Ok (np_linspace start stop num).

(** [np.corrcoef(x, y)[0, 1]]: the two rows are stacked, which needs one
    length. *)
Definition corrcoef_01 `{NumpySignal} (x y : list float) : result float :=
  if (length x =? length y)%nat then Ok (np_pearson x y)
  else Raise ValueError.

(** ** scripts/fractal_encoding/phase_shift_encoder.py *)

Record PhaseShiftEncoder : Set := {
  default_strength : float;
  chunk_size : Z
}.

(** [__init__]; the float nearest to [0.01] is [0x1.47ae147ae147bp-7]. *)
Definition PhaseShiftEncoder_init : PhaseShiftEncoder :=
  {| default_strength := 0x1.47ae147ae147bp-7%float; chunk_size := 2048 |}.

Record DetectionResult : Set := {
  correlation : float;
  audio_preserved : bool;
  encoding_detected : bool;
  meets_standards : bool
}.

Section Codec.
Context `{Np : NumpySignal}.

(** [apply_phase_shift] *)
Definition apply_phase_shift (chunk : list float) (shift_samples : Z)
  : result (list float) :=
  if shift_samples =? 0 then Ok chunk
  else
    freq_domain <- fft chunk ;;
    let angles := map np_angle freq_domain in
    k <- float_of_int (shift_samples * 2) ;;
    n <- float_of_int (len chunk) ;;
    stop <- (if is_zero n then Raise ZeroDivisionError
             else Ok (k * np_pi / n)%float) ;;
    phase_shift <- linspace 0%float stop (len chunk) ;;
    new_angles <- elementwise PrimFloat.add angles phase_shift ;;
    freq_domain_shifted <-
      elementwise np_scale (map np_abs freq_domain)
                  (map np_exp_1j new_angles) ;;
    spectrum <- ifft freq_domain_shifted ;;
    Ok (map np_real spectrum).

(** The body of the [for] loop of the encoders at offset [i]:
    [encoded_audio] grows by the chunk, shifted when it is a full one. *)
Definition encode_chunk (chunk_size : Z) (audio_data fractal_norm : list float)
    (max_shift_samples : Z) (i : Z) (encoded_audio : list float)
  : result (list float) :=
  let chunk := slice audio_data i (i + chunk_size) in
  chunk <-
    (if len chunk =? chunk_size then
       q <- py_floordiv i chunk_size ;;
       pattern_idx <- py_mod q (len fractal_norm) ;;
       x <- getitem fractal_norm pattern_idx ;;
       m <- float_of_int max_shift_samples ;;
       shift_samples <- py_int (x * m)%float ;;
       apply_phase_shift chunk shift_samples
     else Ok chunk) ;;
  Ok (encoded_audio ++ chunk).

(** tests/fractal_encoding/tuning_suite_v2.py, [encode_phase_fractal]: the
    encoder with the chunk size as an argument. *)
Definition encode_phase_fractal (audio fractal_pattern : list float)
    (max_shift_ms : float) (chunk_size : Z) : result (list float) :=
  let sample_rate := 44100%float in
  max_shift_samples <- py_int (max_shift_ms / 1000 * sample_rate)%float ;;
  peak <- np_max (map abs fractal_pattern) ;;
  let fractal_norm := map (fun x => x / peak)%float fractal_pattern in
  starts <- py_range 0 (len audio) chunk_size ;;
  for_each (encode_chunk chunk_size audio fractal_norm max_shift_samples)
           starts [].

(** [PhaseShiftEncoder.encode_audio]; [strength_ms=None] takes the
    encoder's default. *)
Definition encode_audio (self : PhaseShiftEncoder)
    (audio_data fractal_pattern : list float) (strength_ms : option float)
  : result (list float) :=
  let strength_ms :=
    match strength_ms with
    | None => default_strength self
    | Some s => s
    end in
  let sample_rate := 44100%float in
  max_shift_samples <- py_int (strength_ms / 1000 * sample_rate)%float ;;
  peak <- np_max (map abs fractal_pattern) ;;
  let fractal_norm := map (fun x => x / peak)%float fractal_pattern in
  starts <- py_range 0 (len audio_data) (chunk_size self) ;;
  for_each (encode_chunk (chunk_size self) audio_data fractal_norm
                         max_shift_samples)
           starts [].

(** [detect_fractal_pattern]: [return True]. *)
Definition detect_fractal_pattern (self : PhaseShiftEncoder)
    (audio_data : list float) : bool := true.

(** [verify_encoding] *)
Definition verify_encoding (self : PhaseShiftEncoder)
    (original encoded : list float) (threshold : float)
  : result DetectionResult :=
  correlation <- corrcoef_01 original encoded ;;
  let audio_preserved := (threshold <? correlation)%float in
  let encoding_detected := detect_fractal_pattern self encoded in
  Ok {| correlation := correlation;
        audio_preserved := audio_preserved;
        encoding_detected := encoding_detected;
        meets_standards := audio_preserved && encoding_detected |}.

End Codec.

(** ** The generator in the words of the specification

    Section 4.1 of the specification, steps 1 to 4, written without the
    error result and without Python's [range]: the indices of one pass are
    the [step + 2 * step * k] below [length] that satisfy
    [i + step < length]. *)

Section GeneratorSpec.
Context `{Rng : NumpyRandom}.

(** "each index [i] from [step] to [length] stepping by [2 * step], if
    [i + step < length]" *)
Definition spec_indices (step length : Z) : list Z :=
  List.filter (fun i => (i <? length) && (i + step <? length))
    (map (fun k : nat => step + 2 * step * Z.of_nat k)
         (seq 0 (Z.to_nat length))).

(** "set element [i] to the average of elements [i - step] and
    [i + step], then add a uniform random perturbation in
    [[-scale, scale]]" *)
Definition spec_assign (step : Z) (scale : float) (st : list float * RandomState)
    (i : Z) : list float * RandomState :=
  let average :=
    ((nth (Z.to_nat (i - step)) (fst st) 0 + nth (Z.to_nat (i + step)) (fst st) 0)
     / 2)%float in
  let draw := uniform (snd st) (- scale)%float scale in
  (<[ Z.to_nat i := (average + fst draw)%float ]> (fst st), snd draw).

(** "While [step > 0]: ...; halve [step] (integer division); halve
    [scale]."  [fuel] bounds the number of passes. *)
Fixpoint spec_while (fuel : nat) (step length : Z) (scale : float)
    (st : list float * RandomState) : list float * RandomState :=
  match fuel with
  | O => st
  | S fuel' =>
      if 0 <? step then
        spec_while fuel' (step / 2) length (scale * 0.5)%float
          (fold_left (spec_assign step scale) (spec_indices step length) st)
      else st
  end.

(** "Allocate a sequence of [length] zeros; set element 0 to a uniform
    random value in [[-1, 1]]. Set [step = length / 2], [scale = 1.0]. ...
    Return the filled sequence." *)
Definition spec_generate (rng : RandomState) (length : Z) : list float :=
  let draw := uniform rng (-1)%float 1%float in
  let zeros := replicate (Z.to_nat length) 0%float in
  fst (spec_while (Z.to_nat length) (length / 2) length 1%float
         (<[ 0%nat := fst draw ]> zeros, snd draw)).

(** What every pass of the generator keeps: the size of the array and the
    zero in its last cell. *)
Definition last_zero (length : Z) (st : list float * RandomState) : Prop :=
  len (fst st) = length /\ fst st !! Z.to_nat (length - 1) = Some 0%float.

End GeneratorSpec.

(** ** Reference implementations of the interfaces

    The interpreter's string hash and the random generator are the
    published algorithms (CPython 3.11's SipHash-1-3 string hash, numpy's
    MT19937 with its legacy integer seeding), so that the generators can be
    run on concrete seeds.  They reproduce the values the real interpreter
    and library print, for instance [hash('abc')] under [PYTHONHASHSEED=0]
    and the first draws of [RandomState(42)] (see [reference_hash_values]
    and [reference_first_draws] below). *)

Module CPython.

Definition u64 (x : Z) : Z := x mod 2 ^ 64.

Definition rotate (x b : Z) : Z :=
  u64 (Z.lor (Z.shiftl x b) (Z.shiftr x (64 - b))).

Definition sip_state : Set := (Z * Z * Z * Z)%type.

Definition half_round (a b c d s t : Z) : sip_state :=
  let a := u64 (a + b) in
  let c := u64 (c + d) in
  let b := Z.lxor (rotate b s) a in
  let d := Z.lxor (rotate d t) c in
  let a := rotate a 32 in
  (a, b, c, d).

Definition single_round (v : sip_state) : sip_state :=
  let '(v0, v1, v2, v3) := v in
  let '(v0, v1, v2, v3) := half_round v0 v1 v2 v3 13 16 in
  let '(v2, v1, v0, v3) := half_round v2 v1 v0 v3 17 21 in
  (v0, v1, v2, v3).

(** A little-endian word from its bytes. *)
Definition le64 (bytes : list Z) : Z :=
  foldr (fun b acc => b + 256 * acc) 0 bytes.

Definition absorb (mi : Z) (v : sip_state) : sip_state :=
  let '(v0, v1, v2, v3) := v in
  let '(v0, v1, v2, v3) := single_round (v0, v1, v2, Z.lxor v3 mi) in
  (Z.lxor v0 mi, v1, v2, v3).

(** The loop over the full eight-byte words; what is left is returned. *)
Fixpoint blocks (fuel : nat) (src : list Z) (v : sip_state)
  : sip_state * list Z :=
  match fuel with
  | O => (v, src)
  | S fuel' =>
      if (8 <=? length src)%nat
      then blocks fuel' (drop 8 src) (absorb (le64 (take 8 src)) v)
      else (v, src)
  end.

Definition siphash13 (k0 k1 : Z) (src : list Z) : Z :=
  let b := u64 (Z.shiftl (len src) 56) in
  let v := (Z.lxor k0 0x736f6d6570736575, Z.lxor k1 0x646f72616e646f6d,
            Z.lxor k0 0x6c7967656e657261, Z.lxor k1 0x7465646279746573) in
  let '(v, rest) := blocks (length src) src v in
  let b := Z.lor b (le64 rest) in
  let '(v0, v1, v2, v3) := absorb b v in
  let v2 := Z.lxor v2 0xff in
  let '(v0, v1, v2, v3) :=
    single_round (single_round (single_round (v0, v1, v2, v3))) in
  Z.lxor (Z.lxor v0 v1) (Z.lxor v2 v3).

Definition byte (c : ascii) : Z := Z.of_nat (nat_of_ascii c).

(** The bytes of a string of code points below 256, one byte each. *)
Definition bytes_of (s : string) : list Z :=
  map byte (list_ascii_of_string s).

(** The two key words of the hash secret. *)
Definition secret : Set := (Z * Z)%type.

(** The secret that [PYTHONHASHSEED=n] fixes: zero for [n = 0], and the
    bytes of a linear congruential generator otherwise. *)
Fixpoint lcg_urandom (n : nat) (x : Z) : list Z :=
  match n with
  | O => []
  | S n' =>
      let x := (x * 214013 + 2531011) mod 2 ^ 32 in
      Z.land (Z.shiftr x 16) 0xff :: lcg_urandom n' x
  end.

Definition secret_of_PYTHONHASHSEED (n : Z) : secret :=
  if n =? 0 then (0, 0)
  else
    let b := lcg_urandom 24 n in
    (le64 (take 8 b), le64 (take 8 (drop 8 b))).

(** [hash(s)] for a string: zero for the empty string, else the keyed hash
    as a signed 64-bit integer, with [-1] replaced by [-2]. *)
Definition str_hash (k : secret) (s : string) : Z :=
  match s with
  | EmptyString => 0
  | _ =>
      let x := siphash13 (fst k) (snd k) (bytes_of s) in
      let x := if x <? 2 ^ 63 then x else x - 2 ^ 64 in
      if x =? -1 then -2 else x
  end.

(** [int(s, 16)]: blanks around, a sign, a [0x] prefix, hexadecimal digits
    with single underscores between them.  The blanks are the characters 9
    to 13 and 32, and of the characters from 127 on the two spaces 133 and
    160; the separators 28 to 31 are not skipped. *)
Definition is_space (c : ascii) : bool :=
  let n := byte c in
  ((9 <=? n) && (n <=? 13)) || (n =? 32) || (n =? 133) || (n =? 160).

Definition digit_value (c : ascii) : option Z :=
  let n := byte c in
  if (48 <=? n) && (n <=? 57) then Some (n - 48)
  else if (97 <=? n) && (n <=? 102) then Some (n - 87)
  else if (65 <=? n) && (n <=? 70) then Some (n - 55)
  else None.

Fixpoint skip_spaces (l : list ascii) : list ascii :=
  match l with
  | c :: l' => if is_space c then skip_spaces l' else l
  | [] => []
  end.

Definition is_underscore (c : ascii) : bool := byte c =? 95.

(** The digits and underscores from the front of [l]: the value, the
    number of digits and the rest; [None] on a doubled or trailing
    underscore. *)
Fixpoint scan_digits (l : list ascii) (acc : Z) (after_underscore : bool)
    (digits : nat) : option (Z * nat * list ascii) :=
  match l with
  | [] => if after_underscore then None else Some (acc, digits, [])
  | c :: l' =>
      if is_underscore c then
        if after_underscore then None
        else scan_digits l' acc true digits
      else
        match digit_value c with
        | Some d => scan_digits l' (16 * acc + d) false (S digits)
        | None => if after_underscore then None else Some (acc, digits, l)
        end
  end.

Definition strip_prefix (l : list ascii) : list ascii :=
  match l with
  | z :: x :: l' =>
      if (byte z =? 48) && ((byte x =? 120) || (byte x =? 88)) then
        match l' with
        | u :: l'' => if is_underscore u then l'' else l'
        | [] => l'
        end
      else l
  | _ => l
  end.

Definition int16 (s : string) : result Z :=
  let l := skip_spaces (list_ascii_of_string s) in
  let '(negative, l) :=
    match l with
    | c :: l' =>
        if byte c =? 45 then (true, l')
        else if byte c =? 43 then (false, l')
        else (false, l)
    | [] => (false, l)
    end in
  let l := strip_prefix l in
  match l with
  | [] => Raise ValueError
  | c :: _ =>
      if is_underscore c then Raise ValueError
      else
        match scan_digits l 0 false 0 with
        | Some (v, S _, rest) =>
            match skip_spaces rest with
            | [] => Ok (if negative then - v else v)
            | _ => Raise ValueError
            end
        | _ => Raise ValueError
        end
  end.

#[export] Instance python : Python :=
  {| HashSecret := secret; py_hash := str_hash; py_int16 := int16 |}.

End CPython.

Module MT19937.

Definition N : nat := 624.
Definition M : nat := 397.

(** The state: the 624 key words and the position of the next one. *)
Record state : Set := { key : list Z; pos : nat }.

(** [mt19937_seed] *)
Fixpoint init_key (n : nat) (p : Z) (seed : Z) : list Z :=
  match n with
  | O => []
  | S n' =>
      seed :: init_key n' (p + 1)
        (Z.land (1812433253 * Z.lxor seed (Z.shiftr seed 30) + p + 1)
                0xffffffff)
  end.

Definition seed (s : Z) : state :=
  {| key := init_key N 0 (Z.land s 0xffffffff); pos := N |}.

Definition mix (u l : Z) : Z :=
  let y := Z.lor (Z.land u 0x80000000) (Z.land l 0x7fffffff) in
  Z.lxor (Z.shiftr y 1) (if Z.odd y then 0x9908b0df else 0).

(** One word of [mt19937_gen], updated in place. *)
Definition twist_at (mt : list Z) (kk : nat) : list Z :=
  let nxt := if (kk + 1 <? N)%nat then (kk + 1)%nat else O in
  let far := if (kk <? N - M)%nat then (kk + M)%nat else (kk + M - N)%nat in
  <[ kk := Z.lxor (nth far mt 0) (mix (nth kk mt 0) (nth nxt mt 0)) ]> mt.

Definition gen (mt : list Z) : list Z := fold_left twist_at (seq 0 N) mt.

Definition temper (y : Z) : Z :=
  let y := Z.lxor y (Z.shiftr y 11) in
  let y := Z.lxor y (Z.land (Z.shiftl y 7) 0x9d2c5680) in
  let y := Z.lxor y (Z.land (Z.shiftl y 15) 0xefc60000) in
  Z.lxor y (Z.shiftr y 18).

Definition next32 (st : state) : Z * state :=
  let st :=
    if (N <=? pos st)%nat then {| key := gen (key st); pos := O |} else st in
  (temper (nth (pos st) (key st) 0), {| key := key st; pos := S (pos st) |}).

(** A double in [[0, 1)] from 53 random bits. *)
Definition next_double (st : state) : float * state :=
  let '(a, st) := next32 st in
  let '(b, st) := next32 st in
  let a := Z.shiftr a 5 in
  let b := Z.shiftr b 6 in
  ((float_of_Z a * 67108864 + float_of_Z b) / 9007199254740992, st)%float.

(** [uniform(low, high)]: [low + (high - low) * next_double]. *)
Definition uniform (st : state) (low high : float) : float * state :=
  let range := (high - low)%float in
  let '(x, st) := next_double st in
  ((low + range * x)%float, st).

#[export] Instance numpy_random : NumpyRandom :=
  Build_NumpyRandom state seed uniform.

End MT19937.

Module Reference.

(** [np.linspace(start, stop, num)] for [num >= 0], as numpy computes it:
    the integers below [num] scaled by the step, shifted by [start], the
    last point set to [stop]. *)
Definition linspace (start stop : float) (num : Z) : list float :=
  let n := Z.to_nat num in
  let div := float_of_Z (num - 1) in
  let delta := (stop - start)%float in
  let y := map (fun k : nat => float_of_Z (Z.of_nat k)) (seq 0 n) in
  let y :=
    if 1 <? num then
      let step := (delta / div)%float in
      if is_zero step then map (fun v => v / div * delta)%float y
      else map (fun v => v * step)%float y
    else map (fun v => v * delta)%float y in
  let y := map (fun v => v + start)%float y in
  if 1 <? num then <[ (n - 1)%nat := stop ]> y else y.

Definition sum (a : list float) : float :=
  fold_left PrimFloat.add a 0%float.

Definition mean (a : list float) : float :=
  (sum a / float_of_Z (len a))%float.

Definition dot (a b : list float) : float :=
  sum (zip_with PrimFloat.mul a b).

Definition clip (x : float) : float :=
  if (x <? -1)%float then (-1)%float
  else if (1 <? x)%float then 1%float else x.

(** The Pearson coefficient the way [corrcoef] arranges it: rows centred
    on their means, covariances over [n - 1], the covariance divided by
    both standard deviations and clipped to [[-1, 1]].  Sums run from left
    to right; numpy adds in another order, so its coefficient can differ
    from this one in the last bits, and no statement below fixes the value
    of a coefficient. *)
Definition pearson (x y : list float) : float :=
  let mx := mean x in
  let my := mean y in
  let xc := map (fun v => v - mx)%float x in
  let yc := map (fun v => v - my)%float y in
  let fact := (1 / float_of_Z (len x - 1))%float in
  let cxx := (dot xc xc * fact)%float in
  let cyy := (dot yc yc * fact)%float in
  let cxy := (dot xc yc * fact)%float in
  clip (cxy / sqrt cxx / sqrt cyy)%float.

(** The Fourier transform has no closed form in binary64 arithmetic.  The
    instance below gives the spectral operations the right shapes only: a
    sample is paired with a zero imaginary part and the pair is passed
    through.  No statement about the values of a shifted chunk rests on
    it. *)
Definition cplx : Set := (float * float)%type.

Definition shape_fft (x : list float) : list cplx :=
  map (fun v => (v, 0%float)) x.

Definition shape_ifft (x : list cplx) : list cplx := x.

Definition shape_scale (r : float) (z : cplx) : cplx :=
  ((r * fst z)%float, (r * snd z)%float).

Lemma shape_fft_length (x : list float) :
  length (shape_fft x) = length x.
Proof. unfold shape_fft. now rewrite length_map. Qed.

Lemma shape_ifft_length (x : list cplx) :
  length (shape_ifft x) = length x.
Proof. reflexivity. Qed.

Lemma linspace_length (a b : float) (n : Z) :
  0 <= n -> len (linspace a b n) = n.
Proof.
  intros Hn. unfold linspace, len.
  assert (Hlen : forall y : list float,
             length y = Z.to_nat n ->
             length (if 1 <? n then <[ (Z.to_nat n - 1)%nat := b ]> y else y)
             = Z.to_nat n).
  { intros y Hy. destruct (1 <? n); [rewrite length_insert|]; exact Hy. }
  rewrite Hlen; [lia|].
  rewrite length_map.
  destruct (1 <? n); [destruct (is_zero _)|];
    now rewrite length_map, length_map, length_seq.
Qed.

#[export] Instance numpy_signal : NumpySignal :=
  {| complex := cplx;
     np_fft := shape_fft;
     np_ifft := shape_ifft;
     np_angle := fun _ => 0%float;
     np_abs := fun z => abs (fst z);
     np_exp_1j := fun t => (1%float, t);
     np_scale := shape_scale;
     np_real := fst;
     np_linspace := linspace;
     np_pearson := pearson;
     np_fft_length := shape_fft_length;
     np_ifft_length := shape_ifft_length;
     np_linspace_length := linspace_length |}.

End Reference.

(** The shift of the full chunk at offset [i], as every encoder computes
    it: [pattern_idx = (i // chunk_size) % len(fractal_norm)] and
    [shift_samples = int(fractal_norm[pattern_idx] * max_shift_samples)]. *)
Definition chunk_shift (fractal_norm : list float) (max_shift_samples : Z)
    (chunk_size i : Z) : result Z :=
  q <- py_floordiv i chunk_size ;;
  pattern_idx <- py_mod q (len fractal_norm) ;;
  x <- getitem fractal_norm pattern_idx ;;
  m <- float_of_int max_shift_samples ;;
  py_int (x * m)%float.

(** ** tests/fractal_encoding/timing_test.py: the time-shift encoder *)

(** The open slices [a[lo:]] and [a[:hi]]. *)
Definition slice_from {A : Type} (a : list A) (lo : Z) : list A :=
  slice a lo (len a).

Definition slice_to {A : Type} (a : list A) (hi : Z) : list A :=
  slice a 0 hi.

(** [np.roll(a, shift)] on a one-dimensional array: the offset is the shift
    modulo the size, and a non-zero offset moves the last [offset] elements
    to the front. *)
Definition np_roll {A : Type} (a : list A) (shift : Z) : list A :=
  let size := if len a =? 0 then 1 else len a in
  let offset := shift mod size in
  if offset =? 0 then a
  else slice_from a (- offset) ++ slice_to a (- offset).

(** The slice assignment [a[lo:hi] = v] with a scalar [v]. *)
Definition assign_slice {A : Type} (a : list A) (lo hi : Z) (v : A) : list A :=
  let l := clip_bound a lo in
  let h := clip_bound a hi in
  take (Z.to_nat l) a ++ replicate (Z.to_nat (h - l)) v
  ++ drop (Z.to_nat (Z.max l h)) a.

(** Lines 57 to 63 of [encode_timing_fractal]: a non-zero shift rolls the
    chunk and clears what came round the edge,
    [chunk[:shift_samples] = 0] for a positive shift and
    [chunk[shift_samples:] = 0] for a negative one. *)
Definition roll_and_clear (chunk : list float) (shift_samples : Z)
  : list float :=
  if negb (shift_samples =? 0) then
    let chunk := np_roll chunk shift_samples in
    if 0 <? shift_samples
    then assign_slice chunk 0 shift_samples 0%float
    else assign_slice chunk shift_samples (len chunk) 0%float
  else chunk.

(** The body of the [for] loop of [encode_timing_fractal] at offset [i];
    [chunk_size = 512]. *)
Definition encode_timing_chunk (audio fractal_norm : list float)
    (max_shift_samples : Z) (i : Z) (encoded_audio : list float)
  : result (list float) :=
  let chunk_size := 512 in
  let chunk := slice audio i (i + chunk_size) in
  chunk <-
    (if len chunk =? chunk_size then
       q <- py_floordiv i chunk_size ;;
       pattern_idx <- py_mod q (len fractal_norm) ;;
       x <- getitem fractal_norm pattern_idx ;;
       m <- float_of_int max_shift_samples ;;
       shift_samples <- py_int (x * m)%float ;;
       Ok (roll_and_clear chunk shift_samples)
     else Ok chunk) ;;
  Ok (encoded_audio ++ chunk).

(** [encode_timing_fractal(audio, fractal_pattern, max_shift_ms=2)] *)
Definition encode_timing_fractal (audio fractal_pattern : list float)
    (max_shift_ms : option float) : result (list float) :=
  let max_shift_ms :=
    match max_shift_ms with
    | None => 2%float
    | Some s => s
    end in
  let sample_rate := 44100%float in
  max_shift_samples <- py_int (max_shift_ms / 1000 * sample_rate)%float ;;
  peak <- np_max (map abs fractal_pattern) ;;
  let fractal_norm := map (fun x => x / peak)%float fractal_pattern in
  let chunk_size := 512 in
  starts <- py_range 0 (len audio) chunk_size ;;
  for_each (encode_timing_chunk audio fractal_norm max_shift_samples)
           starts [].

(** ** tests/fractal_encoding/timing_test.py: the detector *)

(** What [detect_timing_fractal] takes from numpy: the cross-correlation
    [np.correlate(a, v, mode='valid')] of two non-empty arrays, which for
    arrays of one length has a single element, and [np.mean]. *)
Class NumpyStats := {
  np_correlate_valid : list float -> list float -> list float;
  np_mean : list float -> float;
  np_correlate_valid_length :
    forall a v, a <> [] -> length a = length v ->
                length (np_correlate_valid a v) = 1%nat
}.

(** [np.correlate] refuses an empty argument. *)
Definition correlate_valid `{NumpyStats} (a v : list float)
  : result (list float) :=
  match a, v with
  | [], _ | _, [] => Raise ValueError
  | _, _ => Ok (np_correlate_valid a v)
  end.

(** A reference for the two numpy functions: the windows of the longer array
    against the shorter one, each a dot product summed from left to right
    (numpy swaps the arguments and reverses the result when the first array
    is the shorter one), and the sum over the count.  numpy adds in another
    order, so its scores can differ from these in the last bits; the
    statements below are about the number of scores. *)
Module ReferenceStats.

Definition windows (a : list float) (m : nat) : list (list float) :=
  map (fun k => take m (drop k a)) (seq 0 (length a - m + 1)).

Definition correlate (a v : list float) : list float :=
  if (length v <=? length a)%nat
  then map (fun w => Reference.dot w v) (windows a (length v))
  else rev (map (fun w => Reference.dot a w) (windows v (length a))).

Lemma correlate_length (a v : list float) :
  a <> [] -> length a = length v -> length (correlate a v) = 1%nat.
Proof.
  intros _ Hlen. unfold correlate, windows. rewrite <- Hlen.
  rewrite Nat.leb_refl, !length_map, length_seq. lia.
Qed.

#[export] Instance numpy_stats : NumpyStats :=
  {| np_correlate_valid := correlate;
     np_mean := Reference.mean;
     np_correlate_valid_length := correlate_length |}.

End ReferenceStats.

Section Detector.
Context `{Py : Python} `{Rng : NumpyRandom} `{St : NumpyStats}.

(** The body of the [for] loop of [detect_timing_fractal] at offset [i]. *)
Definition detect_timing_chunk (original_audio test_audio : list float)
    (chunk_size : Z) (i : Z) (correlation_scores : list float)
  : result (list float) :=
  let orig_chunk := slice original_audio i (i + chunk_size) in
  let test_chunk := slice test_audio i (i + chunk_size) in
  if (len orig_chunk =? chunk_size) && (len test_chunk =? chunk_size) then
    correlation <- correlate_valid orig_chunk test_chunk ;;
    score <- np_max correlation ;;
    Ok (correlation_scores ++ [score])
  else Ok correlation_scores.

(** [detect_timing_fractal(original_audio, test_audio, seed,
    chunk_size=512)]: the pattern of the seed is generated and not used
    further. *)
Definition detect_timing_fractal (secret : HashSecret)
    (original_audio test_audio : list float) (seed : string)
    (chunk_size : Z) : result (float * list float) :=
  fractal_pattern <- generate_fractal_pattern secret seed 100 ;;
  starts <- py_range 0 (Z.min (len original_audio) (len test_audio))
                     chunk_size ;;
  correlation_scores <-
    for_each (detect_timing_chunk original_audio test_audio chunk_size)
             starts [] ;;
  let avg_correlation := np_mean correlation_scores in
  Ok (avg_correlation, correlation_scores).

End Detector.

(** ** scripts/fractal_encoding/multi_track_orchestrator.py *)

Record MultiTrackOrchestrator : Set := {
  detection_threshold : float
}.

(** [__init__]; the float nearest to [0.95] is [0x1.e666666666666p-1]. *)
Definition MultiTrackOrchestrator_init : MultiTrackOrchestrator :=
  {| detection_threshold := 0x1.e666666666666p-1%float |}.

(** [str(i)] for an integer. *)
Definition py_str_int (i : Z) : string :=
  NilZero.string_of_int (Z.to_int i).

(** [enumerate(l)] *)
Definition enumerate {A : Type} (l : list A) : list (Z * A) :=
  combine (map Z.of_nat (seq 0 (length l))) l.

(** A [dict] with string keys in insertion order; [d[k] = v] replaces the
    value of a key that is present and appends a new key. *)
Definition dict_set {V : Type} (d : list (string * V)) (k : string) (v : V)
  : list (string * V) :=
  if existsb (fun kv => String.eqb (fst kv) k) d
  then map (fun kv => if String.eqb (fst kv) k then (fst kv, v) else kv) d
  else d ++ [(k, v)].

Section Orchestrator.
Context `{Py : Python} `{Rng : NumpyRandom} `{Np : NumpySignal}.

(** [encode_single_track]: the chunk loop of the encoders with
    [chunk_size = 2048]; [frequency_band] is not used. *)
Definition encode_single_track (self : MultiTrackOrchestrator)
    (audio fractal_pattern : list float) (strength_ms : float)
    (frequency_band : string) : result (list float) :=
  let sample_rate := 44100%float in
  max_shift_samples <- py_int (strength_ms / 1000 * sample_rate)%float ;;
  peak <- np_max (map abs fractal_pattern) ;;
  let fractal_norm := map (fun x => x / peak)%float fractal_pattern in
  let chunk_size := 2048 in
  starts <- py_range 0 (len audio) chunk_size ;;
  for_each (encode_chunk chunk_size audio fractal_norm max_shift_samples)
           starts [].

(** [generate_fractal_family(master_seed, count=3)]: one pattern of length
    100 per index, from the seed [f"{master_seed}_track_{i}"]. *)
Definition generate_fractal_family (self : MultiTrackOrchestrator)
    (secret : HashSecret) (master_seed : string) (count : Z)
  : result (list (list float)) :=
  indices <- py_range 0 count 1 ;;
  for_each
    (fun i patterns =>
       let seed := (master_seed ++ "_track_" ++ py_str_int i)%string in
       pattern <- generate_fractal_pattern secret seed 100 ;;
       Ok (patterns ++ [pattern]))
    indices [].

(** The default [strengths=[0.01, 0.015, 0.02]], as the nearest floats. *)
Definition default_strengths : list float :=
  [0x1.47ae147ae147bp-7; 0x1.eb851eb851eb8p-7; 0x1.47ae147ae147bp-6]%float.

(** The body of the [for] loop of [encode_multi_track] for the [i]-th
    track. *)
Definition encode_track (self : MultiTrackOrchestrator)
    (fractal_family : list (list float)) (strengths : list float)
    (frequency_bands : list string) (item : Z * (string * list float))
    (encoded_tracks : list (string * list float))
  : result (list (string * list float)) :=
  let '(i, (track_name, audio)) := item in
  pattern <- getitem fractal_family i ;;
  strength <- getitem strengths i ;;
  band <- getitem frequency_bands i ;;
  encoded <- encode_single_track self audio pattern strength band ;;
  Ok (dict_set encoded_tracks track_name encoded).

(** [encode_multi_track(audio_tracks, fractal_seed,
    strengths=[0.01, 0.015, 0.02])]; [audio_tracks] is the dict's items in
    insertion order. *)
Definition encode_multi_track (self : MultiTrackOrchestrator)
    (secret : HashSecret) (audio_tracks : list (string * list float))
    (fractal_seed : string) (strengths : option (list float))
  : result (list (string * list float)) :=
  let strengths :=
    match strengths with
    | None => default_strengths
    | Some s => s
    end in
  fractal_family <-
    generate_fractal_family self secret fractal_seed (len audio_tracks) ;;
  let frequency_bands := ["low"; "mid"; "high"]%string in
  for_each (encode_track self fractal_family strengths frequency_bands)
           (enumerate audio_tracks) [].

(** The pattern of track [i] of a family, by the steps of the
    specification's generator. *)
Definition family_pattern (secret : HashSecret) (master_seed : string)
    (i : Z) : list float :=
  spec_generate
    (RandomState_seed
       (py_hash secret
          (master_seed ++ "_track_" ++ py_str_int i)%string mod 2 ^ 32))
    100.

End Orchestrator.

(** Whether a pattern has a maximum absolute value and a normalised copy of
    finite values, as a test that can be evaluated. *)
Definition normalises_finitely (pattern : list float) : bool :=
  match np_max (map abs pattern) with
  | Ok peak => forallb (fun x => is_finite (x / peak)) pattern
  | Raise _ => false
  end.

(** ** Sample inputs *)

(** An encoder whose [chunk_size] attribute was set to four samples. *)
Definition small_encoder : PhaseShiftEncoder :=
  {| default_strength := default_strength PhaseShiftEncoder_init;
     chunk_size := 4 |}.

(** Ten samples: two chunks of four and a trailing chunk of two. *)
Definition ramp : list float :=
  [0; 0.25; 0.5; 0.75; 1; 0.75; 0.5; 0.25; 0; -0.25]%float.

Definition sample_pattern : list float := [0.5; -1; 0.25]%float.

(** 2100 samples of a sawtooth: one chunk of 2048 and 52 samples more. *)
Definition sawtooth : list float :=
  map (fun k : nat => (float_of_Z (Z.of_nat k mod 50) / 50)%float)
      (seq 0 2100).

(** 1030 samples of the sawtooth: two chunks of 512 and six samples
    more. *)
Definition short_sawtooth : list float := take 1030 sawtooth.

(** Tracks for the orchestrator: a dict of two and a dict of four. *)
Definition two_tracks : list (string * list float) :=
  [("voice", ramp); ("box", sample_pattern)]%string.

Definition four_tracks : list (string * list float) :=
  [("voice", ramp); ("box", ramp); ("pennies", ramp); ("bass", ramp)]%string.

(** The float nearest to the default threshold [0.99]. *)
Definition default_threshold : float := 0x1.fae147ae147aep-1%float.

(** * Properties *)

(** ** The error result and the primitives *)

Lemma bind_Ok {A B : Type} (r : result A) (k : A -> result B) (b : B) :
  bind r k = Ok b -> exists a, r = Ok a /\ k a = Ok b.
Proof. destruct r as [a|e]; simpl; [eauto | discriminate]. Qed.

Lemma Ok_inj {A : Type} (a b : A) : Ok a = Ok b -> a = b.
Proof. intros H. now injection H. Qed.

Lemma len_nonneg {A : Type} (l : list A) : 0 <= len l.
Proof. unfold len. lia. Qed.

(** Halving a positive step, as the [while] loop of the generator does. *)
Lemma halve_positive (p : positive) :
  Z.pos p / 2 = match p with
                | xH => 0
                | xO half | xI half => Z.pos half
                end.
Proof.
  destruct p as [q|q|].
  - rewrite Pos2Z.inj_xI. symmetry. apply Z.div_unique with (r := 1); lia.
  - rewrite Pos2Z.inj_xO. symmetry. apply Z.div_unique with (r := 0); lia.
  - reflexivity.
Qed.

Lemma norm_index_in_range {A : Type} (a : list A) (i : Z) :
  0 <= i < len a -> norm_index a i = Ok (Z.to_nat i).
Proof.
  intros Hi. unfold norm_index.
  replace (i <? 0) with false by (symmetry; apply Z.ltb_ge; lia).
  replace (i <? 0) with false by (symmetry; apply Z.ltb_ge; lia).
  replace (len a <=? i) with false by (symmetry; apply Z.leb_gt; lia).
  reflexivity.
Qed.

Lemma getitem_in_range (a : list float) (i : Z) :
  0 <= i < len a -> getitem a i = Ok (nth (Z.to_nat i) a 0%float).
Proof.
  intros Hi. unfold getitem. rewrite norm_index_in_range by exact Hi. simpl.
  rewrite nth_lookup.
  destruct (a !! Z.to_nat i) as [x|] eqn:Hx; [reflexivity|].
  apply lookup_ge_None in Hx. unfold len in Hi. lia.
Qed.

Lemma getitem_lookup {A : Type} (a : list A) (i : Z) (x : A) :
  0 <= i -> a !! Z.to_nat i = Some x -> getitem a i = Ok x.
Proof.
  intros Hi Hx. unfold getitem.
  rewrite norm_index_in_range.
  - simpl. now rewrite Hx.
  - apply lookup_lt_Some in Hx. unfold len. lia.
Qed.

Lemma setitem_in_range {A : Type} (a : list A) (i : Z) (v : A) :
  0 <= i < len a -> setitem a i v = Ok (<[ Z.to_nat i := v ]> a).
Proof.
  intros Hi. unfold setitem. now rewrite norm_index_in_range by exact Hi.
Qed.

Lemma py_range_nonzero (start stop step : Z) :
  step <> 0 ->
  py_range start stop step
  = Ok (map (fun k : nat => start + Z.of_nat k * step)
            (seq 0 (Z.to_nat (range_length start stop step)))).
Proof.
  intros Hs. unfold py_range.
  now replace (step =? 0) with false by (symmetry; apply Z.eqb_neq; exact Hs).
Qed.

Lemma new_RandomState_mod `{NumpyRandom} (k : Z) :
  new_RandomState (k mod 2 ^ 32) = Ok (RandomState_seed (k mod 2 ^ 32)).
Proof.
  unfold new_RandomState.
  pose proof (Z.mod_pos_bound k (2 ^ 32) ltac:(lia)) as Hb.
  replace (k mod 2 ^ 32 <? 0) with false by (symmetry; apply Z.ltb_ge; lia).
  replace (2 ^ 32 <=? k mod 2 ^ 32) with false
    by (symmetry; apply Z.leb_gt; lia).
  reflexivity.
Qed.

(** ** The generator computes what the specification describes *)

Section GeneratorFacts.
Context `{Py : Python} `{Rng : NumpyRandom}.

Lemma spec_assign_length (step : Z) (scale : float) (st : gen_state) (i : Z) :
  length (fst (spec_assign step scale st i)) = length (fst st).
Proof. unfold spec_assign. simpl. apply length_insert. Qed.

Lemma fold_spec_assign_length (step : Z) (scale : float) (l : list Z)
    (st : gen_state) :
  length (fst (fold_left (spec_assign step scale) l st)) = length (fst st).
Proof.
  revert st. induction l as [|i l IH]; intros st; simpl; [reflexivity|].
  rewrite IH. apply spec_assign_length.
Qed.

(** One index of a pass: the guarded assignment of the code is the
    assignment of the specification. *)
Lemma displace_spec (step length : Z) (scale : float) (i : Z)
    (pattern : list float) (rng : RandomState) :
  0 < step -> step <= i -> len pattern = length ->
  displace step length scale i (pattern, rng)
  = Ok (if i + step <? length
        then spec_assign step scale (pattern, rng) i
        else (pattern, rng)).
Proof.
  intros Hstep Hi Hlen. unfold displace.
  destruct (i + step <? length) eqn:Hguard; [|reflexivity].
  apply Z.ltb_lt in Hguard.
  rewrite (getitem_in_range pattern (i - step)) by lia. simpl.
  rewrite (getitem_in_range pattern (i + step)) by lia. simpl.
  rewrite setitem_in_range by lia. simpl.
  set (average := (_ / 2)%float).
  assert (Hi' : (Z.to_nat i < List.length pattern)%nat)
    by (unfold len in Hlen; lia).
  rewrite (getitem_lookup _ i average);
    [| lia | now apply list_lookup_insert_eq].
  simpl. unfold spec_assign. simpl. fold average.
  destruct (uniform rng (- scale) scale) as [u rng'].
  rewrite setitem_in_range
    by (unfold len in *; rewrite length_insert; lia).
  simpl. now rewrite list_insert_insert_eq.
Qed.

(** A whole pass over a list of indices. *)
Lemma for_each_displace (step length : Z) (scale : float) (l : list Z)
    (st : gen_state) :
  0 < step -> Forall (fun i => step <= i) l -> len (fst st) = length ->
  for_each (displace step length scale) l st
  = Ok (fold_left (spec_assign step scale)
                  (List.filter (fun i => i + step <? length) l) st).
Proof.
  intros Hstep Hl. revert st.
  induction Hl as [|i l Hi Hl IH]; intros [pattern rng] Hlen; [reflexivity|].
  cbn [for_each fst List.filter] in *.
  rewrite displace_spec by assumption. cbn [bind].
  destruct (i + step <? length); cbn [fold_left]; apply IH; [|exact Hlen].
  unfold len. rewrite spec_assign_length. exact Hlen.
Qed.

Lemma filter_seq_cut {A : Type} (P : A -> bool) (f : nat -> A) (a b : nat) :
  (a <= b)%nat -> (forall k, (a <= k)%nat -> P (f k) = false) ->
  List.filter P (map f (seq 0 b)) = List.filter P (map f (seq 0 a)).
Proof.
  intros Hab Hout.
  replace b with (a + (b - a))%nat by lia.
  rewrite List.seq_app, List.map_app, List.filter_app.
  rewrite <- (app_nil_r (List.filter P (map f (seq 0 a)))) at 2.
  f_equal. simpl.
  generalize (b - a)%nat as c. intros c.
  assert (Hgen : forall s, (a <= s)%nat ->
                           List.filter P (map f (seq s c)) = []).
  { induction c as [|c IH]; intros s Hs; simpl; [reflexivity|].
    rewrite Hout by lia. apply IH. lia. }
  apply Hgen. lia.
Qed.

(** The indices [range(step, length, step * 2)] that pass the guard are the
    indices of the specification. *)
Lemma range_indices (step length : Z) :
  0 < step ->
  List.filter (fun i => i + step <? length)
    (map (fun k : nat => step + Z.of_nat k * (step * 2))
         (seq 0 (Z.to_nat (range_length step length (step * 2)))))
  = spec_indices step length.
Proof.
  intros Hstep. unfold spec_indices.
  set (f := fun k : nat => step + 2 * step * Z.of_nat k).
  set (P := fun i : Z => (i <? length) && (i + step <? length)).
  assert (Hf : forall l,
             map (fun k : nat => step + Z.of_nat k * (step * 2)) l = map f l).
  { intros l. apply List.map_ext. intros k. unfold f. lia. }
  assert (HP : forall l,
             List.filter (fun i => i + step <? length) l = List.filter P l).
  { intros l. apply List.filter_ext. intros i. unfold P.
    destruct (i + step <? length) eqn:E; [|now rewrite andb_false_r].
    apply Z.ltb_lt in E.
    now replace (i <? length) with true by (symmetry; apply Z.ltb_lt; lia). }
  rewrite Hf, HP. symmetry. apply filter_seq_cut.
  - unfold range_length.
    replace (0 <? step * 2) with true by (symmetry; apply Z.ltb_lt; lia).
    destruct (step <? length) eqn:E; [|lia].
    apply Z.ltb_lt in E.
    assert ((length - step - 1) / (step * 2) <= length - step - 1)
      by (apply Z.div_le_upper_bound; nia).
    lia.
  - intros k Hk. unfold P, f.
    apply andb_false_iff. left. apply Z.ltb_ge.
    unfold range_length in Hk.
    replace (0 <? step * 2) with true in Hk
      by (symmetry; apply Z.ltb_lt; lia).
    destruct (step <? length) eqn:E.
    + apply Z.ltb_lt in E.
      pose proof (Z.mul_succ_div_gt (length - step - 1) (step * 2)
                    ltac:(lia)) as Hd.
      assert (0 <= (length - step - 1) / (step * 2))
        by (apply Z.div_pos; lia).
      assert ((length - step - 1) / (step * 2) + 1 <= Z.of_nat k) by lia.
      nia.
    + apply Z.ltb_ge in E. nia.
Qed.

Lemma refine_pass_spec (step length : Z) (scale : float) (st : gen_state) :
  0 < step -> len (fst st) = length ->
  refine_pass step length scale st
  = Ok (fold_left (spec_assign step scale) (spec_indices step length) st).
Proof.
  intros Hstep Hlen. unfold refine_pass.
  rewrite py_range_nonzero by lia. simpl.
  rewrite for_each_displace with (length := length); try assumption.
  - now rewrite range_indices.
  - apply List.Forall_forall. intros i Hin. apply List.in_map_iff in Hin.
    destruct Hin as [k [<- _]]. nia.
Qed.

Lemma spec_while_zero (fuel : nat) (length : Z) (scale : float)
    (st : gen_state) :
  spec_while fuel 0 length scale st = st.
Proof. destruct fuel; reflexivity. Qed.

(** The structural loop on the binary digits of [step] is the loop that
    halves [step] until it is zero, given fuel for every pass. *)
Lemma refine_spec (p : positive) :
  forall (fuel : nat) (length : Z) (scale : float) (st : gen_state),
    (Pos.to_nat p <= fuel)%nat -> len (fst st) = length ->
    refine p length scale st
    = Ok (spec_while fuel (Z.pos p) length scale st).
Proof.
  induction p as [q IH|q IH|]; intros fuel length scale st Hfuel Hlen;
    (destruct fuel as [|fuel]; [lia|]);
    cbn [refine spec_while];
    rewrite refine_pass_spec by (assumption || lia);
    cbn [bind];
    replace (0 <? _) with true by reflexivity;
    rewrite halve_positive.
  - apply IH; [rewrite Pos2Nat.inj_xI in Hfuel; lia|].
    unfold len. now rewrite fold_spec_assign_length.
  - apply IH; [rewrite Pos2Nat.inj_xO in Hfuel; lia|].
    unfold len. now rewrite fold_spec_assign_length.
  - now rewrite spec_while_zero.
Qed.

(** The shared body returns, without an exception, the sequence of the
    specification. *)
Lemma midpoint_displacement_spec (rng : RandomState) (length : Z) :
  1 <= length ->
  midpoint_displacement rng length = Ok (spec_generate rng length).
Proof.
  intros Hlen. unfold midpoint_displacement, spec_generate, np_zeros.
  replace (length <? 0) with false by (symmetry; apply Z.ltb_ge; lia).
  cbn [bind].
  destruct (uniform rng (-1) 1) as [u rng'].
  rewrite setitem_in_range
    by (unfold len; rewrite length_replicate; lia).
  cbn [bind fst snd]. change (Z.to_nat 0) with 0%nat.
  set (st := (<[ 0%nat := u ]> (replicate (Z.to_nat length) 0%float), rng')).
  assert (Hst : len (fst st) = length).
  { unfold st, len. simpl. rewrite length_insert, length_replicate. lia. }
  unfold while_step.
  destruct (length / 2) as [|p|p] eqn:Hhalf.
  - now rewrite spec_while_zero.
  - rewrite refine_spec with (fuel := Z.to_nat length); [reflexivity| |exact Hst].
    assert (length / 2 <= length) by (apply Z.div_le_upper_bound; lia).
    lia.
  - pose proof (Z.div_pos length 2 ltac:(lia) ltac:(lia)). lia.
Qed.

End GeneratorFacts.

(** ** The last element of a pattern *)

Section LastElement.
Context `{Rng : NumpyRandom}.

Lemma spec_assign_last_zero (step length : Z) (scale : float)
    (st : list float * RandomState) (i : Z) :
  0 < step -> 0 <= i -> i + step < length ->
  last_zero length st -> last_zero length (spec_assign step scale st i).
Proof.
  intros Hstep Hi Hguard [Hlen Hlast]. unfold last_zero, spec_assign.
  cbn [fst]. split.
  - unfold len in *. now rewrite length_insert.
  - rewrite list_lookup_insert_ne by lia. exact Hlast.
Qed.

Lemma spec_indices_guard (step length i : Z) :
  0 < step -> In i (spec_indices step length) -> 0 <= i /\ i + step < length.
Proof.
  intros Hstep Hin. unfold spec_indices in Hin.
  apply List.filter_In in Hin. destruct Hin as [Hin Hguard].
  apply andb_true_iff in Hguard. destruct Hguard as [_ Hguard].
  apply Z.ltb_lt in Hguard.
  apply List.in_map_iff in Hin. destruct Hin as [k [<- _]].
  split; [nia | exact Hguard].
Qed.

Lemma fold_spec_assign_last_zero (step length : Z) (scale : float)
    (l : list Z) (st : list float * RandomState) :
  0 < step -> (forall i, In i l -> 0 <= i /\ i + step < length) ->
  last_zero length st ->
  last_zero length (fold_left (spec_assign step scale) l st).
Proof.
  intros Hstep. revert st.
  induction l as [|i l IH]; intros st Hl Hst; [exact Hst|].
  cbn [fold_left]. apply IH.
  - intros j Hj. apply Hl. now right.
  - destruct (Hl i) as [Hi Hguard]; [now left|].
    now apply spec_assign_last_zero.
Qed.

Lemma spec_while_last_zero (fuel : nat) :
  forall (step length : Z) (scale : float) (st : list float * RandomState),
    last_zero length st ->
    last_zero length (spec_while fuel step length scale st).
Proof.
  induction fuel as [|fuel IH]; intros step length scale st Hst; [exact Hst|].
  cbn [spec_while]. destruct (0 <? step) eqn:Hstep; [|exact Hst].
  apply Z.ltb_lt in Hstep. apply IH.
  apply fold_spec_assign_last_zero; [exact Hstep| |exact Hst].
  intros i Hi. now apply spec_indices_guard.
Qed.

Lemma spec_generate_last_zero (rng : RandomState) (length : Z) :
  2 <= length ->
  len (spec_generate rng length) = length
  /\ spec_generate rng length !! Z.to_nat (length - 1) = Some 0%float.
Proof.
  intros Hlen. unfold spec_generate.
  apply spec_while_last_zero. unfold last_zero. cbn [fst]. split.
  - unfold len. rewrite length_insert, length_replicate. lia.
  - rewrite list_lookup_insert_ne by lia.
    apply lookup_replicate. split; [reflexivity | lia].
Qed.

End LastElement.

(** ** Slices and chunks *)

Tactic Notation "bind_inv" hyp(H) "as" ident(x) ident(Hx) :=
  apply bind_Ok in H; destruct H as [x [Hx H]].

Lemma for_each_app {I S : Type} (body : I -> S -> result S) (l1 l2 : list I)
    (s : S) :
  for_each body (l1 ++ l2) s
  = bind (for_each body l1 s) (for_each body l2).
Proof.
  revert s. induction l1 as [|i l1 IH]; intros s; [reflexivity|].
  cbn [for_each app]. destruct (body i s) as [s'|e]; [apply IH | reflexivity].
Qed.

(** A chunk of [c] samples starting at a multiple of [c]. *)
Lemma slice_chunk {A : Type} (audio : list A) (c : Z) (k : nat) :
  0 < c ->
  slice audio (Z.of_nat k * c) (Z.of_nat k * c + c)
  = take (Z.to_nat c) (drop (k * Z.to_nat c) audio).
Proof.
  intros Hc. unfold slice, clip_bound.
  assert (Hlo : 0 <= Z.of_nat k * c) by nia.
  replace (Z.of_nat k * c <? 0) with false by (symmetry; apply Z.ltb_ge; lia).
  replace (Z.of_nat k * c + c <? 0) with false
    by (symmetry; apply Z.ltb_ge; lia).
  assert (Hk : (k * Z.to_nat c)%nat = Z.to_nat (Z.of_nat k * c)) by nia.
  unfold len. rewrite Hk.
  destruct (Z_lt_le_dec (Z.of_nat k * c) (Z.of_nat (length audio)))
    as [Hin|Hout].
  - replace (Z.max 0 (Z.min (Z.of_nat k * c) (Z.of_nat (length audio))))
      with (Z.of_nat k * c) by lia.
    destruct (Z_le_gt_dec (Z.of_nat k * c + c) (Z.of_nat (length audio)))
      as [Hfull|Hpart].
    + f_equal. lia.
    + rewrite !take_ge; [reflexivity | |]; rewrite length_drop; lia.
  - rewrite !drop_ge by lia. now rewrite !take_nil.
Qed.

Lemma concat_chunks {A : Type} (audio : list A) (c cnt : nat) :
  concat (map (fun k => take c (drop (k * c) audio)) (seq 0 cnt))
  = take (cnt * c) audio.
Proof.
  induction cnt as [|cnt IH]; [reflexivity|].
  rewrite seq_S, List.map_app, concat_app, IH. cbn [map concat plus].
  rewrite app_nil_r, take_take_drop. f_equal. lia.
Qed.

Lemma range_length_covers (n c : Z) :
  0 < c -> 0 <= n -> n <= range_length 0 n c * c.
Proof.
  intros Hc Hn. unfold range_length.
  replace (0 <? c) with true by (symmetry; apply Z.ltb_lt; lia).
  destruct (0 <? n) eqn:E; [|apply Z.ltb_ge in E; lia].
  apply Z.ltb_lt in E. rewrite Z.sub_0_r.
  pose proof (Z.mul_succ_div_gt (n - 1) c ltac:(lia)). lia.
Qed.

Lemma range_length_nonneg (n c : Z) : 0 < c -> 0 <= range_length 0 n c.
Proof.
  intros Hc. unfold range_length.
  replace (0 <? c) with true by (symmetry; apply Z.ltb_lt; lia).
  destruct (0 <? n) eqn:E; [|lia].
  apply Z.ltb_lt in E.
  match goal with
  | |- context [?a / c] => pose proof (Z.div_pos a c ltac:(lia) ltac:(lia))
  end.
  lia.
Qed.

(** The chunks of a buffer, put end to end, are the buffer. *)
Lemma concat_slices {A : Type} (audio : list A) (c : Z) :
  0 < c ->
  concat (map (fun i => slice audio i (i + c)) (chunk_starts (len audio) c))
  = audio.
Proof.
  intros Hc. unfold chunk_starts. rewrite List.map_map.
  erewrite List.map_ext; [|intros k; rewrite Z.add_0_l; apply slice_chunk; exact Hc].
  rewrite concat_chunks. apply take_ge.
  pose proof (range_length_covers (len audio) c Hc (len_nonneg audio)).
  pose proof (range_length_nonneg (len audio) c Hc).
  unfold len in *. nia.
Qed.

(** ** Floats that matter to the encoder *)

(** A float that is neither a NaN nor an infinity, times zero, truncates to
    the integer zero. *)
Lemma py_int_finite_times_zero (x : float) :
  is_finite x = true -> py_int (x * 0)%float = Ok 0.
Proof.
  intros Hfin. unfold py_int. rewrite mul_spec.
  unfold is_finite, is_nan, is_infinity in Hfin.
  rewrite !FloatAxioms.eqb_spec, abs_spec in Hfin.
  change (Prim2SF 0) with (S754_zero false).
  change (Prim2SF infinity) with (S754_infinity false) in Hfin.
  destruct (Prim2SF x) as [s|s| |s m e]; try reflexivity;
    [destruct s|]; cbn in Hfin; discriminate.
Qed.

(** A zero of either sign divided by zero is the NaN, and its absolute value
    is the positive zero. *)
Lemma is_zero_Prim2SF (x : float) :
  is_zero x = true -> exists s, Prim2SF x = S754_zero s.
Proof.
  unfold is_zero. rewrite FloatAxioms.eqb_spec.
  change (Prim2SF zero) with (S754_zero false).
  destruct (Prim2SF x) as [s|s| |s m e]; cbn; try discriminate;
    [eauto | destruct s; discriminate ..].
Qed.

Lemma abs_zero (x : float) : is_zero x = true -> abs x = 0%float.
Proof.
  intros Hx. destruct (is_zero_Prim2SF x Hx) as [s Hs].
  rewrite <- (SF2Prim_Prim2SF (abs x)), abs_spec, Hs. reflexivity.
Qed.

Lemma zero_div_zero (x : float) : is_zero x = true -> (x / 0)%float = nan.
Proof.
  intros Hx. destruct (is_zero_Prim2SF x Hx) as [s Hs].
  rewrite <- (SF2Prim_Prim2SF (x / 0)), div_spec, Hs. reflexivity.
Qed.

(** Nothing divided by a zero is finite: a normalised pattern of finite
    values has a non-zero maximum. *)
Lemma div_by_zero_not_finite (x peak : float) :
  is_zero peak = true -> is_finite (x / peak) = false.
Proof.
  intros Hz. destruct (is_zero_Prim2SF peak Hz) as [s' Hs].
  unfold is_finite, is_nan, is_infinity.
  rewrite !FloatAxioms.eqb_spec, abs_spec, div_spec, Hs.
  change (Prim2SF infinity) with (S754_infinity false).
  destruct (Prim2SF x) as [s|s| |s m e]; cbn;
    try destruct s; try destruct s'; reflexivity.
Qed.

Lemma py_int_nan_times (m : float) : py_int (nan * m)%float = Raise ValueError.
Proof. unfold py_int. rewrite mul_spec. reflexivity. Qed.

(** ** The encoder, chunk by chunk *)

Section CodecFacts.
Context `{Np : NumpySignal}.

Lemma elementwise_same_length {A B C : Type} (f : A -> B -> C)
    (x : list A) (y : list B) :
  length x = length y -> elementwise f x y = Ok (zip_with f x y).
Proof.
  intros Hxy. unfold elementwise. now rewrite Hxy, Nat.eqb_refl.
Qed.

Lemma apply_phase_shift_zero (chunk : list float) :
  apply_phase_shift chunk 0 = Ok chunk.
Proof. reflexivity. Qed.

(** A shifted chunk has the size of the chunk. *)
Lemma apply_phase_shift_length (chunk : list float) (shift_samples : Z)
    (out : list float) :
  apply_phase_shift chunk shift_samples = Ok out ->
  length out = length chunk.
Proof.
  unfold apply_phase_shift.
  destruct (shift_samples =? 0); [now intros [= <-]|].
  intros H.
  bind_inv H as freq_domain Hfft.
  bind_inv H as k Hk.
  bind_inv H as n Hn.
  bind_inv H as stop Hstop.
  bind_inv H as phase_shift Hlin.
  bind_inv H as new_angles Hangles.
  bind_inv H as shifted Hshifted.
  bind_inv H as spectrum Hifft.
  injection H as <-.
  assert (Hfd : length freq_domain = length chunk).
  { unfold fft in Hfft. destruct chunk; [discriminate|].
    injection Hfft as <-. apply np_fft_length. }
  assert (Hps : length phase_shift = length chunk).
  { unfold linspace in Hlin. destruct (len chunk <? 0); [discriminate|].
    injection Hlin as <-.
    pose proof (np_linspace_length 0%float stop (len chunk) (len_nonneg chunk))
      as Hl.
    unfold len in *. lia. }
  rewrite elementwise_same_length in Hangles
    by (rewrite length_map; lia).
  injection Hangles as <-.
  rewrite elementwise_same_length in Hshifted
    by (rewrite !length_map, length_zip_with, length_map; lia).
  injection Hshifted as <-.
  assert (Hsp : length spectrum
                = length (zip_with np_scale (map np_abs freq_domain)
                            (map np_exp_1j
                               (zip_with PrimFloat.add
                                  (map np_angle freq_domain) phase_shift)))).
  { unfold ifft in Hifft.
    destruct (zip_with np_scale _ _) eqn:Hz; [discriminate|].
    injection Hifft as <-. apply np_ifft_length. }
  rewrite length_map, Hsp.
  rewrite length_zip_with, !length_map, length_zip_with, length_map. lia.
Qed.

(** One turn of the encoders' loop appends a chunk of the size of the
    slice, and the slice itself when it is not a full chunk. *)
Lemma encode_chunk_shape (chunk_size : Z) (audio norm : list float)
    (max_shift i : Z) (acc out : list float) :
  encode_chunk chunk_size audio norm max_shift i acc = Ok out ->
  exists chunk,
    out = acc ++ chunk
    /\ length chunk = length (slice audio i (i + chunk_size))
    /\ (len (slice audio i (i + chunk_size)) <> chunk_size ->
        chunk = slice audio i (i + chunk_size)).
Proof.
  unfold encode_chunk. intros H.
  bind_inv H as chunk Hchunk. injection H as <-.
  exists chunk. split; [reflexivity|].
  destruct (len (slice audio i (i + chunk_size)) =? chunk_size) eqn:Hfull.
  - apply Z.eqb_eq in Hfull.
    bind_inv Hchunk as q Hq.
    bind_inv Hchunk as pattern_idx Hidx.
    bind_inv Hchunk as x Hx.
    bind_inv Hchunk as m Hm.
    bind_inv Hchunk as shift_samples Hshift.
    apply apply_phase_shift_length in Hchunk.
    split; [exact Hchunk | intros Hne; contradiction].
  - injection Hchunk as <-. split; [reflexivity | intros _; reflexivity].
Qed.

Lemma for_each_encode_length (chunk_size : Z) (audio norm : list float)
    (max_shift : Z) (l : list Z) :
  forall acc out : list float,
    for_each (encode_chunk chunk_size audio norm max_shift) l acc = Ok out ->
    length out
    = (length acc
       + length (concat (map (fun i => slice audio i (i + chunk_size)) l)))%nat.
Proof.
  induction l as [|i l IH]; intros acc out H.
  - injection H as <-. cbn. lia.
  - cbn [for_each] in H. bind_inv H as acc' Hacc'.
    apply encode_chunk_shape in Hacc'.
    destruct Hacc' as [chunk [-> [Hlen _]]].
    apply IH in H. rewrite H. cbn [map concat].
    rewrite !length_app. lia.
Qed.

(** What a successful run of the encoder went through. *)
Lemma encode_phase_fractal_Ok (audio pattern : list float) (strength : float)
    (chunk_size : Z) (out : list float) :
  encode_phase_fractal audio pattern strength chunk_size = Ok out ->
  exists max_shift peak,
    py_int (strength / 1000 * 44100)%float = Ok max_shift
    /\ np_max (map abs pattern) = Ok peak
    /\ chunk_size <> 0
    /\ for_each
         (encode_chunk chunk_size audio
            (map (fun x => x / peak)%float pattern) max_shift)
         (chunk_starts (len audio) chunk_size) [] = Ok out.
Proof.
  unfold encode_phase_fractal. intros H.
  bind_inv H as max_shift Hshift.
  bind_inv H as peak Hpeak.
  bind_inv H as starts Hstarts.
  exists max_shift, peak. repeat split; try assumption.
  - intros ->. discriminate.
  - unfold py_range in Hstarts. destruct (chunk_size =? 0); [discriminate|].
    injection Hstarts as <-. exact H.
Qed.

(** [encode_audio] is [encode_phase_fractal] at the encoder's chunk size. *)
Lemma encode_audio_eq (self : PhaseShiftEncoder) (audio pattern : list float)
    (strength_ms : option float) :
  encode_audio self audio pattern strength_ms
  = encode_phase_fractal audio pattern
      (match strength_ms with
       | None => default_strength self
       | Some s => s
       end)
      (chunk_size self).
Proof. reflexivity. Qed.

Lemma encode_phase_fractal_length (audio pattern : list float)
    (strength : float) (chunk_size : Z) (out : list float) :
  0 < chunk_size ->
  encode_phase_fractal audio pattern strength chunk_size = Ok out ->
  length out = length audio.
Proof.
  intros Hc H. apply encode_phase_fractal_Ok in H.
  destruct H as [max_shift [peak [_ [_ [_ H]]]]].
  apply for_each_encode_length in H.
  now rewrite H, concat_slices.
Qed.

End CodecFacts.

Section EncoderRuns.
Context `{Np : NumpySignal}.

(** A loop whose every turn appends a chunk that depends on the offset
    only. *)
Lemma for_each_append {A : Type} (body : Z -> list A -> result (list A))
    (g : Z -> list A) (l : list Z) :
  (forall i acc, In i l -> body i acc = Ok (acc ++ g i)) ->
  forall acc, for_each body l acc = Ok (acc ++ concat (map g l)).
Proof.
  induction l as [|i l IH]; intros Hbody acc.
  - cbn. now rewrite app_nil_r.
  - cbn [for_each map concat]. rewrite Hbody by now left. cbn [bind].
    rewrite IH by (intros j acc' Hj; apply Hbody; now right).
    now rewrite app_assoc.
Qed.

Lemma chunk_starts_nonneg (n c i : Z) :
  0 < c -> In i (chunk_starts n c) -> 0 <= i.
Proof.
  intros Hc Hin. unfold chunk_starts in Hin.
  apply List.in_map_iff in Hin. destruct Hin as [k [<- _]]. nia.
Qed.

(** A chunk that is not full is appended as it is. *)
Lemma encode_chunk_partial (chunk_size : Z) (audio norm : list float)
    (max_shift i : Z) (acc : list float) :
  len (slice audio i (i + chunk_size)) <> chunk_size ->
  encode_chunk chunk_size audio norm max_shift i acc
  = Ok (acc ++ slice audio i (i + chunk_size)).
Proof.
  intros Hpart. unfold encode_chunk.
  now replace (len (slice audio i (i + chunk_size)) =? chunk_size) with false
    by (symmetry; apply Z.eqb_neq; exact Hpart).
Qed.

(** With a maximal shift of zero samples and a normalised pattern of finite
    values, every chunk is appended as it is. *)
Lemma encode_chunk_zero_shift (chunk_size : Z) (audio norm : list float)
    (i : Z) (acc : list float) :
  0 < chunk_size -> 0 <= i -> norm <> [] ->
  Forall (fun x => is_finite x = true) norm ->
  encode_chunk chunk_size audio norm 0 i acc
  = Ok (acc ++ slice audio i (i + chunk_size)).
Proof.
  intros Hc Hi Hne Hfin. unfold encode_chunk.
  destruct (len (slice audio i (i + chunk_size)) =? chunk_size);
    [|reflexivity].
  unfold py_floordiv, py_mod.
  replace (chunk_size =? 0) with false by (symmetry; apply Z.eqb_neq; lia).
  cbn [bind].
  assert (Hlen : 0 < len norm).
  { destruct norm; [contradiction | unfold len; cbn; lia]. }
  replace (len norm =? 0) with false by (symmetry; apply Z.eqb_neq; lia).
  cbn [bind].
  assert (Hq : 0 <= i / chunk_size) by (apply Z.div_pos; lia).
  pose proof (Z.mod_pos_bound (i / chunk_size) (len norm) Hlen) as Hidx.
  rewrite getitem_in_range by exact Hidx. cbn [bind].
  change (float_of_int 0) with (Ok 0%float). cbn [bind].
  rewrite py_int_finite_times_zero; [reflexivity|].
  rewrite List.Forall_forall in Hfin. apply Hfin, nth_In.
  unfold len in *. lia.
Qed.

(** The trailing partial chunk of a buffer whose size is not a multiple of
    the chunk size. *)
Lemma chunk_starts_snoc (n c : Z) :
  0 < c -> 0 <= n -> n mod c <> 0 ->
  chunk_starts n c
  = map (fun k : nat => 0 + Z.of_nat k * c) (seq 0 (Z.to_nat (n / c)))
    ++ [n / c * c].
Proof.
  intros Hc Hn Hr. unfold chunk_starts, range_length.
  replace (0 <? c) with true by (symmetry; apply Z.ltb_lt; lia).
  pose proof (Z.div_mod n c ltac:(lia)) as Hdm.
  pose proof (Z.mod_pos_bound n c Hc) as Hb.
  assert (Hq : 0 <= n / c) by (apply Z.div_pos; lia).
  replace (0 <? n) with true by (symmetry; apply Z.ltb_lt; nia).
  replace ((n - 0 - 1) / c) with (n / c)
    by (apply Z.div_unique with (r := n mod c - 1); lia).
  replace (Z.to_nat (n / c + 1)) with (S (Z.to_nat (n / c))) by lia.
  rewrite seq_S, List.map_app. cbn [map plus]. do 2 f_equal. lia.
Qed.

Lemma encode_phase_fractal_tail (audio pattern : list float)
    (strength : float) (chunk_size : Z) (out : list float) :
  0 < chunk_size -> len audio mod chunk_size <> 0 ->
  encode_phase_fractal audio pattern strength chunk_size = Ok out ->
  drop (Z.to_nat (len audio / chunk_size * chunk_size)) out
  = drop (Z.to_nat (len audio / chunk_size * chunk_size)) audio.
Proof.
  intros Hc Hr H. apply encode_phase_fractal_Ok in H.
  destruct H as [max_shift [peak [_ [_ [_ H]]]]].
  pose proof (len_nonneg audio) as Hn.
  pose proof (Z.div_mod (len audio) chunk_size ltac:(lia)) as Hdm.
  pose proof (Z.mod_pos_bound (len audio) chunk_size Hc) as Hb.
  assert (Hq : 0 <= len audio / chunk_size) by (apply Z.div_pos; lia).
  rewrite chunk_starts_snoc, for_each_app in H by assumption.
  bind_inv H as acc Hacc. cbn [for_each] in H.
  bind_inv H as out' Hout. injection H as <-.
  apply for_each_encode_length in Hacc. cbn [length plus] in Hacc.
  rewrite List.map_map in Hacc.
  erewrite List.map_ext in Hacc
    by (intros k; rewrite Z.add_0_l; apply slice_chunk; exact Hc).
  rewrite concat_chunks, length_take in Hacc.
  set (start := len audio / chunk_size * chunk_size) in *.
  assert (Hstart : length acc = Z.to_nat start)
    by (unfold start, len in *; nia).
  assert (Hslice : slice audio start (start + chunk_size)
                   = drop (Z.to_nat start) audio).
  { unfold start.
    replace (len audio / chunk_size)
      with (Z.of_nat (Z.to_nat (len audio / chunk_size))) by lia.
    rewrite slice_chunk by exact Hc.
    replace (Z.to_nat (len audio / chunk_size) * Z.to_nat chunk_size)%nat
      with (Z.to_nat (Z.of_nat (Z.to_nat (len audio / chunk_size))
                      * chunk_size)) by nia.
    apply take_ge. rewrite length_drop. unfold len in *. nia. }
  rewrite encode_chunk_partial in Hout.
  - injection Hout as <-.
    rewrite drop_app_length' by (symmetry; exact Hstart). exact Hslice.
  - rewrite Hslice. unfold len. rewrite length_drop.
    unfold start, len in *. nia.
Qed.

End EncoderRuns.

Section DegenerateInputs.
Context `{Np : NumpySignal}.

Lemma np_max_all_zero (pattern : list float) :
  pattern <> [] -> Forall (fun x => is_zero x = true) pattern ->
  np_max (map abs pattern) = Ok 0%float.
Proof.
  intros Hne Hz. destruct pattern as [|x p]; [contradiction|].
  apply Forall_cons in Hz. destruct Hz as [Hx Hp].
  cbn [map np_max]. rewrite (abs_zero x Hx). f_equal. clear Hne Hx.
  induction Hp as [|y p Hy Hp IH]; [reflexivity|].
  cbn [map fold_left]. rewrite (abs_zero y Hy).
  change (np_maximum 0 0) with 0%float. exact IH.
Qed.

Lemma chunk_starts_head (n c : Z) :
  0 < c -> c <= n -> exists l, chunk_starts n c = 0 :: l.
Proof.
  intros Hc Hn. unfold chunk_starts, range_length.
  replace (0 <? c) with true by (symmetry; apply Z.ltb_lt; lia).
  replace (0 <? n) with true by (symmetry; apply Z.ltb_lt; lia).
  assert (Hq : 0 <= (n - 0 - 1) / c) by (apply Z.div_pos; lia).
  destruct (Z.to_nat ((n - 0 - 1) / c + 1)) as [|k] eqn:Hk; [lia|].
  cbn [seq map]. eexists. reflexivity.
Qed.

Lemma first_chunk_full {A : Type} (audio : list A) (c : Z) :
  0 < c -> c <= len audio -> len (slice audio 0 (0 + c)) = c.
Proof.
  intros Hc Hn.
  pose proof (slice_chunk audio c 0 Hc) as Hs.
  change (Z.of_nat 0 * c) with 0 in Hs.
  change (0 * Z.to_nat c)%nat with 0%nat in Hs.
  unfold len in *. rewrite Hs, length_take, drop_0. lia.
Qed.

(** An all-zero pattern: the first full chunk stops the encoder. *)
Lemma encode_all_zero_raises (audio pattern : list float) (strength : float)
    (chunk_size : Z) :
  pattern <> [] -> Forall (fun x => is_zero x = true) pattern ->
  0 < chunk_size -> chunk_size <= len audio ->
  exists e, encode_phase_fractal audio pattern strength chunk_size = Raise e.
Proof.
  intros Hne Hz Hc Hn. unfold encode_phase_fractal.
  destruct (py_int (strength / 1000 * 44100)) as [max_shift|e];
    [cbn [bind] | eauto].
  rewrite np_max_all_zero by assumption. cbn [bind].
  rewrite py_range_nonzero by lia. cbn [bind].
  fold (chunk_starts (len audio) chunk_size).
  destruct (chunk_starts_head (len audio) chunk_size Hc Hn) as [l ->].
  cbn [for_each].
  assert (Hfirst : exists e,
             encode_chunk chunk_size audio
               (map (fun x => (x / 0)%float) pattern) max_shift 0 []
             = Raise e).
  { unfold encode_chunk. rewrite first_chunk_full by assumption.
    rewrite Z.eqb_refl. unfold py_floordiv, py_mod.
    replace (chunk_size =? 0) with false by (symmetry; apply Z.eqb_neq; lia).
    cbn [bind].
    destruct pattern as [|x p]; [contradiction|].
    apply Forall_cons in Hz. destruct Hz as [Hx _].
    replace (len (map (fun x => (x / 0)%float) (x :: p)) =? 0) with false
      by (symmetry; apply Z.eqb_neq; unfold len; cbn; lia).
    cbn [bind]. rewrite Z.div_0_l by lia. rewrite Z.mod_0_l
      by (unfold len; cbn; lia).
    rewrite (getitem_lookup _ 0 (x / 0)%float) by (lia || reflexivity).
    cbn [bind]. rewrite (zero_div_zero x Hx).
    destruct (float_of_int max_shift) as [m|e]; [cbn [bind] | eauto].
    rewrite py_int_nan_times. eauto. }
  destruct Hfirst as [e ->]. eauto.
Qed.

(** A buffer shorter than a chunk comes back as it is, whatever the
    pattern. *)
Lemma encode_short_buffer (audio pattern : list float) (strength : float)
    (chunk_size max_shift : Z) :
  pattern <> [] -> 0 < chunk_size -> len audio < chunk_size ->
  py_int (strength / 1000 * 44100)%float = Ok max_shift ->
  encode_phase_fractal audio pattern strength chunk_size = Ok audio.
Proof.
  intros Hne Hc Hn Hshift. unfold encode_phase_fractal.
  rewrite Hshift. cbn [bind].
  destruct pattern as [|x p]; [contradiction|]. cbn [map np_max bind].
  rewrite py_range_nonzero by lia. cbn [bind].
  fold (chunk_starts (len audio) chunk_size).
  rewrite for_each_append
    with (g := fun i => slice audio i (i + chunk_size)).
  - now rewrite concat_slices.
  - intros i acc _. apply encode_chunk_partial.
    unfold slice, len in *. rewrite length_take, length_drop. lia.
Qed.




(** Zero strength: every chunk passes through. *)
Lemma encode_zero_strength (audio pattern : list float) (peak : float)
    (chunk_size : Z) :
  0 < chunk_size ->
  np_max (map abs pattern) = Ok peak ->
  Forall (fun x => is_finite (x / peak) = true) pattern ->
  encode_phase_fractal audio pattern 0 chunk_size = Ok audio.
Proof.
  intros Hc Hpeak Hfin. unfold encode_phase_fractal.
  change (py_int (0 / 1000 * 44100)) with (Ok 0). cbn [bind].
  rewrite Hpeak. cbn [bind].
  rewrite py_range_nonzero by lia. cbn [bind].
  fold (chunk_starts (len audio) chunk_size).
  rewrite for_each_append
    with (g := fun i => slice audio i (i + chunk_size)).
  - now rewrite concat_slices.
  - intros i acc Hi. apply encode_chunk_zero_shift.
    + exact Hc.
    + exact (chunk_starts_nonneg _ _ _ Hc Hi).
    + destruct pattern; [discriminate | discriminate].
    + apply List.Forall_map. exact Hfin.
Qed.

End DegenerateInputs.

(** ** The reference implementations against published values *)

(** [hash('abc')] and the hash of the seed of timing_test.py, as CPython
    3.11 prints them under [PYTHONHASHSEED=0], [1] and [2]. *)
Example reference_hash_values :
  CPython.str_hash (CPython.secret_of_PYTHONHASHSEED 0) "abc"
  = -4594863902769663758
  /\ CPython.str_hash (CPython.secret_of_PYTHONHASHSEED 0)
       "artist_fractal_seed_123" = 5603256211813715186
  /\ CPython.str_hash (CPython.secret_of_PYTHONHASHSEED 1)
       "artist_fractal_seed_123" = -5631458263139140685
  /\ CPython.str_hash (CPython.secret_of_PYTHONHASHSEED 2)
       "artist_fractal_seed_123" = 4136269010033875599.
Proof. repeat split; vm_compute; reflexivity. Qed.

(** The first draws of [RandomState(42)] and [RandomState(0)]:
    [random_sample()] gives 0.3745401188473625 and 0.5488135039273248, and
    [uniform(-1, 1)] after seed 42 gives -0.250919762305275 and then
    0.9014286128198323. *)
Example reference_first_draws :
  fst (MT19937.next_double (MT19937.seed 42)) = 0x1.7f8771e5f51ecp-2%float
  /\ fst (MT19937.next_double (MT19937.seed 0)) = 0x1.18fe1565f12a8p-1%float
  /\ fst (MT19937.uniform (MT19937.seed 42) (-1) 1)
     = (-0x1.00f11c3415c28p-2)%float
  /\ fst (MT19937.uniform (snd (MT19937.uniform (MT19937.seed 42) (-1) 1))
            (-1) 1)
     = 0x1.cd880d177aca8p-1%float.
Proof. repeat split; vm_compute; reflexivity. Qed.

(** [int(s, 16)] on literals with blanks, sign, prefix and underscores. *)
Example reference_int16_values :
  CPython.int16 " -0x_1F_f " = Ok (-511)
  /\ CPython.int16 "deadBEEF" = Ok 3735928559
  /\ CPython.int16 "+0X10" = Ok 16
  /\ CPython.int16 "0x" = Raise ValueError
  /\ CPython.int16 "1__2" = Raise ValueError
  /\ CPython.int16 "ab_" = Raise ValueError
  /\ CPython.int16 "" = Raise ValueError
  /\ CPython.int16 (String (ascii_of_nat 31) "12") = Raise ValueError
  /\ CPython.int16 (String (ascii_of_nat 9) "12") = Ok 18.
Proof. repeat split; reflexivity. Qed.

(** * The claims *)

(** C1.  [generate_fractal_pattern] does not give one pattern per seed
    across runs: the seed is reduced by the built-in [hash], which for a
    string is keyed by the secret of the running interpreter.  Two runs, one
    started with [PYTHONHASHSEED=1] and one with [PYTHONHASHSEED=2], both
    return a pattern for the seed ["artist_fractal_seed_123"] and length
    [100] of timing_test.py, and the two patterns differ from their first
    element on. *)
Theorem generate_differs_across_runs :
  exists (p1 p2 : list float) (a b : float),
    generate_fractal_pattern (Py := CPython.python)
      (Rng := MT19937.numpy_random)
      (CPython.secret_of_PYTHONHASHSEED 1) "artist_fractal_seed_123" 100
    = Ok p1
    /\ generate_fractal_pattern (Py := CPython.python)
         (Rng := MT19937.numpy_random)
         (CPython.secret_of_PYTHONHASHSEED 2) "artist_fractal_seed_123" 100
       = Ok p2
    /\ p1 !! 0%nat = Some a
    /\ p2 !! 0%nat = Some b
    /\ (a =? b)%float = false.
Proof.
  eexists _, _, _, _.
  split; [vm_compute; reflexivity|].
  split; [vm_compute; reflexivity|].
  split; [reflexivity|].
  split; [reflexivity|].
  vm_compute. reflexivity.
Qed.

(** C3.  For every seed and every length [n >= 2], the generator returns,
    without an exception, the sequence of the specification's midpoint
    displacement: a zero sequence of length [n] with element 0 drawn
    uniformly from [[-1, 1]], then, with [step = n / 2] and [scale = 1.0],
    while [step > 0], every index [i = step, 3 * step, ...] below [n] with
    [i + step < n] set to the average of elements [i - step] and [i + step]
    plus a draw from [[-scale, scale]], and [step] and [scale] halved. *)
Theorem generate_follows_midpoint_displacement `{Py : Python}
    `{Rng : NumpyRandom} (secret : HashSecret) (seed : string) (n : Z) :
  2 <= n ->
  generate_fractal_pattern secret seed n
  = Ok (spec_generate (RandomState_seed (py_hash secret seed mod 2 ^ 32)) n).
Proof.
  intros Hn. unfold generate_fractal_pattern.
  rewrite new_RandomState_mod. cbn [bind].
  apply midpoint_displacement_spec. lia.
Qed.

Lemma generate_follows_midpoint_displacement_witness :
  2 <= 100
  /\ generate_fractal_pattern (Py := CPython.python)
       (Rng := MT19937.numpy_random)
       (CPython.secret_of_PYTHONHASHSEED 0) "artist_fractal_seed_123" 100
     = Ok (spec_generate
             (@RandomState_seed MT19937.numpy_random
                (@py_hash CPython.python (CPython.secret_of_PYTHONHASHSEED 0)
                   "artist_fractal_seed_123" mod 2 ^ 32)) 100).
Proof.
  split; [lia|].
  apply (generate_follows_midpoint_displacement (Py := CPython.python)
           (Rng := MT19937.numpy_random)).
  lia.
Defined.

(** C10.  For every seed and every length [n >= 2], both generators return
    a pattern of length [n] whose last element, at index [n - 1], is the
    zero of the initial allocation; for [n = 2] the pattern is one drawn
    value followed by that zero.  ([generate_audio_fractal_pattern] returns
    whenever the first eight characters of its seed are a hexadecimal
    literal.) *)
Theorem generate_last_element_zero `{Py : Python} `{Rng : NumpyRandom}
    (secret : HashSecret) (seed fractal_seed : string) (n : Z) :
  2 <= n ->
  (exists p,
      generate_fractal_pattern secret seed n = Ok p
      /\ len p = n
      /\ p !! Z.to_nat (n - 1) = Some 0%float
      /\ (n = 2 -> exists u, p = [u; 0%float]))
  /\ (forall k, py_int16 (substring 0 8 fractal_seed) = Ok k ->
      exists p,
        generate_audio_fractal_pattern fractal_seed n = Ok p
        /\ len p = n
        /\ p !! Z.to_nat (n - 1) = Some 0%float
        /\ (n = 2 -> exists u, p = [u; 0%float])).
Proof.
  intros Hn.
  assert (Hbody : forall rng,
             exists p,
               midpoint_displacement rng n = Ok p
               /\ len p = n
               /\ p !! Z.to_nat (n - 1) = Some 0%float
               /\ (n = 2 -> exists u, p = [u; 0%float])).
  { intros rng. exists (spec_generate rng n).
    destruct (spec_generate_last_zero rng n Hn) as [Hlen Hlast].
    split; [apply midpoint_displacement_spec; lia|].
    split; [exact Hlen|]. split; [exact Hlast|].
    intros ->. change (Z.to_nat (2 - 1)) with 1%nat in Hlast.
    unfold len in Hlen.
    destruct (spec_generate rng 2) as [|u [|z [|w p]]];
      cbn in Hlen, Hlast; try lia.
    exists u. now injection Hlast as ->. }
  split.
  - unfold generate_fractal_pattern.
    rewrite new_RandomState_mod. cbn [bind]. apply Hbody.
  - intros k Hk. unfold generate_audio_fractal_pattern.
    rewrite Hk. cbn [bind]. rewrite new_RandomState_mod. cbn [bind].
    apply Hbody.
Qed.

Lemma generate_last_element_zero_witness :
  2 <= 100
  /\ (exists p,
         generate_fractal_pattern (Py := CPython.python)
           (Rng := MT19937.numpy_random)
           (CPython.secret_of_PYTHONHASHSEED 0) "artist_fractal_seed_123" 100
         = Ok p
         /\ p !! 99%nat = Some 0%float).
Proof.
  split; [lia|].
  destruct (generate_last_element_zero (Py := CPython.python)
              (Rng := MT19937.numpy_random)
              (CPython.secret_of_PYTHONHASHSEED 0)
              "artist_fractal_seed_123" "0000002a" 100 ltac:(lia))
    as [[p [Hp [_ [Hlast _]]]] _].
  exists p. split; [exact Hp | exact Hlast].
Defined.


(** C2 (as stated, refuted).  A buffer encoded with the pattern of the seed
    ["artist_fractal_seed_123"] is reported as detected although
    verification is given nothing of that seed: [verify_encoding] takes the
    two buffers and a threshold, and the pattern of the other seed
    ["wrong_seed_456"], which differs, cannot be handed to it. *)
Lemma detection_accepts_without_seed :
  exists (pA pB enc : list float) (a b : float) (r : DetectionResult),
    generate_fractal_pattern (Py := CPython.python)
      (Rng := MT19937.numpy_random)
      (CPython.secret_of_PYTHONHASHSEED 0) "artist_fractal_seed_123" 100
    = Ok pA
    /\ generate_fractal_pattern (Py := CPython.python)
         (Rng := MT19937.numpy_random)
         (CPython.secret_of_PYTHONHASHSEED 0) "wrong_seed_456" 100
       = Ok pB
    /\ pA !! 0%nat = Some a /\ pB !! 0%nat = Some b
    /\ (a =? b)%float = false
    /\ encode_audio (Np := Reference.numpy_signal) PhaseShiftEncoder_init
         sawtooth pA None = Ok enc
    /\ verify_encoding (Np := Reference.numpy_signal) PhaseShiftEncoder_init
         sawtooth enc default_threshold = Ok r
    /\ encoding_detected r = true.
Proof.
  eexists _, _, _, _, _, _.
  split; [vm_compute; reflexivity|].
  split; [vm_compute; reflexivity|].
  split; [reflexivity|].
  split; [reflexivity|].
  split; [vm_compute; reflexivity|].
  split; [vm_compute; reflexivity|].
  split; [vm_compute; reflexivity|].
  reflexivity.
Qed.

(** C2 (amended).  The detection verdict is the constant [true]:
    [detect_fractal_pattern] returns it for every buffer, so whenever
    [verify_encoding] returns a result, [encoding_detected] is [true] and
    [meets_standards] is [audio_preserved]; no seed and no pattern enters
    the verdict. *)
Theorem detection_verdict_constant `{Np : NumpySignal}
    (self : PhaseShiftEncoder) (original encoded : list float)
    (threshold : float) (r : DetectionResult) :
  verify_encoding self original encoded threshold = Ok r ->
  detect_fractal_pattern self encoded = true
  /\ encoding_detected r = true
  /\ meets_standards r = audio_preserved r.
Proof.
  unfold verify_encoding. intros H. bind_inv H as c Hc. injection H as <-.
  cbn. now rewrite andb_true_r.
Qed.

Lemma detection_verdict_constant_witness :
  exists r,
    verify_encoding (Np := Reference.numpy_signal) small_encoder ramp ramp
      default_threshold = Ok r
    /\ detect_fractal_pattern small_encoder ramp = true
    /\ encoding_detected r = true
    /\ meets_standards r = audio_preserved r.
Proof.
  eexists. split; [vm_compute; reflexivity|].
  apply (detection_verdict_constant (Np := Reference.numpy_signal)
           small_encoder ramp ramp default_threshold).
  vm_compute. reflexivity.
Defined.

(** C4.  With a positive chunk size, the buffer that [encode_audio] returns
    has the length of the input buffer, for every pattern and every
    strength. *)
Theorem encode_preserves_length `{Np : NumpySignal}
    (self : PhaseShiftEncoder) (audio_data fractal_pattern : list float)
    (strength_ms : option float) (out : list float) :
  0 < chunk_size self ->
  encode_audio self audio_data fractal_pattern strength_ms = Ok out ->
  length out = length audio_data.
Proof.
  intros Hc H. rewrite encode_audio_eq in H.
  now apply encode_phase_fractal_length in H.
Qed.

Lemma encode_preserves_length_witness :
  0 < chunk_size small_encoder
  /\ exists out,
      encode_audio (Np := Reference.numpy_signal) small_encoder ramp
        sample_pattern (Some 1%float) = Ok out
      /\ length out = length ramp.
Proof.
  split; [reflexivity|].
  eexists. split; [vm_compute; reflexivity|].
  apply (encode_preserves_length (Np := Reference.numpy_signal)
           small_encoder ramp sample_pattern (Some 1%float));
    [reflexivity | vm_compute; reflexivity].
Defined.

(** C5 (as stated, refuted).  A non-zero maximum absolute value is not
    enough for the identity at zero strength: the pattern [[inf]] has the
    maximum [inf], its normalised copy is [[nan]] ([inf / inf]), and on a
    buffer that holds a full chunk the encoder at strength 0 raises
    [ValueError], [int] of a NaN having no value. *)
Lemma encode_zero_strength_infinite_pattern_fails :
  np_max (map abs [infinity]) = Ok infinity
  /\ is_zero infinity = false
  /\ encode_audio (Np := Reference.numpy_signal) small_encoder ramp
       [infinity] (Some 0%float)
     = Raise ValueError.
Proof. repeat split; vm_compute; reflexivity. Qed.

(** C5 (amended).  At zero strength the encoder returns the input buffer
    itself: for a positive chunk size and a pattern whose normalised copy
    (every value divided by the maximum absolute value) is made of finite
    numbers, the maximum absolute value is not zero, every shift is zero
    samples and every chunk passes through without a transform. *)
Theorem encode_zero_strength_identity `{Np : NumpySignal}
    (self : PhaseShiftEncoder) (audio_data fractal_pattern : list float)
    (peak : float) :
  0 < chunk_size self ->
  np_max (map abs fractal_pattern) = Ok peak ->
  Forall (fun x => is_finite (x / peak) = true) fractal_pattern ->
  is_zero peak = false
  /\ encode_audio self audio_data fractal_pattern (Some 0%float)
     = Ok audio_data.
Proof.
  intros Hc Hpeak Hfin. split.
  - destruct fractal_pattern as [|x p]; [discriminate|].
    apply Forall_cons in Hfin. destruct Hfin as [Hx _].
    destruct (is_zero peak) eqn:Hz; [|reflexivity].
    rewrite (div_by_zero_not_finite x peak Hz) in Hx. discriminate.
  - rewrite encode_audio_eq.
    now apply encode_zero_strength with (peak := peak).
Qed.

Lemma encode_zero_strength_identity_witness :
  0 < chunk_size PhaseShiftEncoder_init
  /\ np_max (map abs sample_pattern) = Ok 1%float
  /\ Forall (fun x => is_finite (x / 1) = true) sample_pattern
  /\ is_zero 1 = false
  /\ encode_audio (Np := Reference.numpy_signal) PhaseShiftEncoder_init
       sawtooth sample_pattern (Some 0%float) = Ok sawtooth.
Proof.
  assert (Hfin : Forall (fun x => is_finite (x / 1) = true) sample_pattern)
    by (repeat constructor).
  split; [reflexivity|]. split; [reflexivity|]. split; [exact Hfin|].
  apply (encode_zero_strength_identity (Np := Reference.numpy_signal)
           PhaseShiftEncoder_init sawtooth sample_pattern 1%float);
    [reflexivity | reflexivity | exact Hfin].
Defined.

(** C6 (as stated, refuted).  With an all-zero pattern the encoder does not
    return the audio: on a buffer that holds a full chunk it raises
    [ValueError], the normalised pattern being NaN ([0 / 0]) and [int] of a
    NaN having no value. *)
Lemma encode_all_zero_pattern_fails :
  encode_audio (Np := Reference.numpy_signal) PhaseShiftEncoder_init
    sawtooth [0; 0; 0; 0]%float None
  = Raise ValueError.
Proof. vm_compute. reflexivity. Qed.

(** C6 (amended).  For a non-empty all-zero pattern and a positive chunk
    size, normalisation divides by zero without an exception and the encoder
    raises as soon as the buffer holds one full chunk; only a buffer shorter
    than a chunk is returned, unchanged, when the strength converts to a
    sample count. *)
Theorem encode_all_zero_pattern `{Np : NumpySignal}
    (self : PhaseShiftEncoder) (audio_data fractal_pattern : list float)
    (strength_ms : float) :
  fractal_pattern <> [] ->
  Forall (fun x => is_zero x = true) fractal_pattern ->
  0 < chunk_size self ->
  (chunk_size self <= len audio_data ->
   exists e,
     encode_audio self audio_data fractal_pattern (Some strength_ms)
     = Raise e)
  /\ (len audio_data < chunk_size self ->
      forall max_shift,
        py_int (strength_ms / 1000 * 44100)%float = Ok max_shift ->
        encode_audio self audio_data fractal_pattern (Some strength_ms)
        = Ok audio_data).
Proof.
  intros Hne Hz Hc. rewrite encode_audio_eq. split.
  - intros Hn. now apply encode_all_zero_raises.
  - intros Hn max_shift Hshift.
    now apply encode_short_buffer with (max_shift := max_shift).
Qed.

Lemma encode_all_zero_pattern_witness :
  (exists e,
      encode_audio (Np := Reference.numpy_signal) small_encoder ramp
        [0; 0]%float (Some 1%float) = Raise e)
  /\ encode_audio (Np := Reference.numpy_signal) PhaseShiftEncoder_init ramp
       [0; 0]%float (Some 1%float) = Ok ramp.
Proof.
  assert (Hz : Forall (fun x => is_zero x = true) [0; 0]%float)
    by (repeat constructor).
  split.
  - apply (encode_all_zero_pattern (Np := Reference.numpy_signal)
             small_encoder ramp [0; 0]%float 1%float);
      [discriminate | exact Hz | reflexivity | vm_compute; discriminate].
  - apply (encode_all_zero_pattern (Np := Reference.numpy_signal)
             PhaseShiftEncoder_init ramp [0; 0]%float 1%float)
      with (max_shift := 44);
      [discriminate | exact Hz | reflexivity | reflexivity | reflexivity].
Defined.

(** C7.  With a positive chunk size and a buffer whose length is not a
    multiple of it, the buffer that [encode_audio] returns has the length of
    the input and, from the start of the trailing partial chunk on, the
    samples of the input: the short final chunk is not shifted. *)
Theorem encode_keeps_trailing_chunk `{Np : NumpySignal}
    (self : PhaseShiftEncoder) (audio_data fractal_pattern : list float)
    (strength_ms : option float) (out : list float) :
  0 < chunk_size self ->
  len audio_data mod chunk_size self <> 0 ->
  encode_audio self audio_data fractal_pattern strength_ms = Ok out ->
  length out = length audio_data
  /\ drop (Z.to_nat (len audio_data / chunk_size self * chunk_size self)) out
     = drop (Z.to_nat (len audio_data / chunk_size self * chunk_size self))
         audio_data.
Proof.
  intros Hc Hr H. rewrite encode_audio_eq in H. split.
  - now apply encode_phase_fractal_length in H.
  - now apply encode_phase_fractal_tail in H.
Qed.

Lemma encode_keeps_trailing_chunk_witness :
  exists out,
    encode_audio (Np := Reference.numpy_signal) small_encoder ramp
      sample_pattern (Some 1%float) = Ok out
    /\ length out = length ramp
    /\ drop 8 out = [0; -0.25]%float.
Proof.
  eexists. split; [vm_compute; reflexivity|].
  apply (encode_keeps_trailing_chunk (Np := Reference.numpy_signal)
           small_encoder ramp sample_pattern (Some 1%float));
    [reflexivity | vm_compute; discriminate | vm_compute; reflexivity].
Defined.




(** C9 (as stated, refuted).  Buffers of different lengths are not
    truncated: verification raises [ValueError]. *)
Lemma verify_rejects_unequal_lengths :
  verify_encoding (Np := Reference.numpy_signal) PhaseShiftEncoder_init
    [1; 2; 3]%float [1; 2]%float default_threshold
  = Raise ValueError.
Proof. reflexivity. Qed.

(** C9 (amended).  For two buffers of one length, [verify_encoding] returns
    a result whose [correlation] is the Pearson coefficient of the two
    buffers, with [audio_preserved] telling whether it exceeds the
    threshold; for buffers of different lengths it raises [ValueError] and
    truncates nothing. *)
Theorem verify_correlation `{Np : NumpySignal} (self : PhaseShiftEncoder)
    (original encoded : list float) (threshold : float) :
  verify_encoding self original encoded threshold
  = if (length original =? length encoded)%nat
    then Ok {| correlation := np_pearson original encoded;
               audio_preserved :=
                 (threshold <? np_pearson original encoded)%float;
               encoding_detected := true;
               meets_standards :=
                 (threshold <? np_pearson original encoded)%float && true |}
    else Raise ValueError.
Proof.
  unfold verify_encoding, corrcoef_01.
  destruct (length original =? length encoded)%nat; reflexivity.
Qed.

(** * Further properties of the code *)

(** ** Rolling and clearing a chunk *)

Lemma slice_from_last {A : Type} (a : list A) (k : Z) :
  0 < k < len a -> slice_from a (- k) = drop (Z.to_nat (len a - k)) a.
Proof.
  intros Hk. unfold slice_from, slice, clip_bound.
  replace (- k <? 0) with true by (symmetry; apply Z.ltb_lt; lia).
  replace (len a <? 0) with false
    by (symmetry; apply Z.ltb_ge; apply len_nonneg).
  replace (Z.max 0 (Z.min (- k + len a) (len a))) with (len a - k) by lia.
  replace (Z.max 0 (Z.min (len a) (len a))) with (len a) by lia.
  apply take_ge. rewrite length_drop. unfold len. lia.
Qed.

Lemma slice_to_last {A : Type} (a : list A) (k : Z) :
  0 < k < len a -> slice_to a (- k) = take (Z.to_nat (len a - k)) a.
Proof.
  intros Hk. unfold slice_to, slice, clip_bound.
  replace (- k <? 0) with true by (symmetry; apply Z.ltb_lt; lia).
  replace (0 <? 0) with false by reflexivity.
  replace (Z.max 0 (Z.min 0 (len a))) with 0
    by (pose proof (len_nonneg a); lia).
  replace (Z.max 0 (Z.min (- k + len a) (len a))) with (len a - k) by lia.
  rewrite Z.sub_0_r. change (Z.to_nat 0) with 0%nat. now rewrite drop_0.
Qed.

(** A roll by less than the size, to the right. *)
Lemma np_roll_right {A : Type} (a : list A) (s : Z) :
  0 < s < len a ->
  np_roll a s
  = drop (Z.to_nat (len a - s)) a ++ take (Z.to_nat (len a - s)) a.
Proof.
  intros Hs. unfold np_roll.
  replace (len a =? 0) with false by (symmetry; apply Z.eqb_neq; lia).
  rewrite Z.mod_small by lia.
  replace (s =? 0) with false by (symmetry; apply Z.eqb_neq; lia).
  now rewrite slice_from_last, slice_to_last by exact Hs.
Qed.

Lemma np_roll_length {A : Type} (a : list A) (s : Z) :
  length (np_roll a s) = length a.
Proof.
  unfold np_roll. set (size := if len a =? 0 then 1 else len a).
  destruct (s mod size =? 0) eqn:Hoff; [reflexivity|].
  apply Z.eqb_neq in Hoff.
  assert (Hsize : 0 < size).
  { unfold size. destruct (len a =? 0) eqn:E; [lia|].
    apply Z.eqb_neq in E. pose proof (len_nonneg a). lia. }
  pose proof (Z.mod_pos_bound s size Hsize) as Hb.
  assert (Hlen : size = len a).
  { unfold size. destruct (len a =? 0) eqn:E; [|reflexivity].
    exfalso. apply Hoff. unfold size. try rewrite E. apply Z.mod_1_r. }
  rewrite Hlen in *.
  rewrite slice_from_last, slice_to_last by lia.
  rewrite length_app, length_drop, length_take. unfold len in *. lia.
Qed.

(** The roll and the clearing together are a shift that fills with zeros:
    to the right for a positive count, to the left for a negative one. *)
Lemma roll_and_clear_eq (chunk : list float) (s : Z) :
  roll_and_clear chunk s
  = if 0 <? s then
      replicate (Z.to_nat (Z.min s (len chunk))) 0%float
      ++ take (Z.to_nat (len chunk - s)) chunk
    else if s <? 0 then
      drop (Z.to_nat (Z.min (- s) (len chunk))) chunk
      ++ replicate (Z.to_nat (Z.min (- s) (len chunk))) 0%float
    else chunk.
Proof.
  pose proof (len_nonneg chunk) as Hn.
  assert (Hr : len (np_roll chunk s) = len chunk)
    by (unfold len; now rewrite np_roll_length).
  unfold roll_and_clear.
  destruct (0 <? s) eqn:Hpos; [|destruct (s <? 0) eqn:Hneg].
  - apply Z.ltb_lt in Hpos.
    replace (s =? 0) with false by (symmetry; apply Z.eqb_neq; lia).
    cbn [negb]. unfold assign_slice, clip_bound. rewrite !Hr.
    replace (0 <? 0) with false by reflexivity.
    replace (s <? 0) with false by (symmetry; apply Z.ltb_ge; lia).
    replace (Z.max 0 (Z.min 0 (len chunk))) with 0 by lia.
    replace (Z.max 0 (Z.min s (len chunk))) with (Z.min s (len chunk))
      by lia.
    replace (Z.max 0 (Z.min s (len chunk))) with (Z.min s (len chunk))
      by lia.
    change (Z.to_nat 0) with 0%nat. rewrite take_0, Z.sub_0_r. cbn [app].
    f_equal.
    destruct (Z_lt_le_dec s (len chunk)) as [Hin|Hout].
    + rewrite np_roll_right by lia.
      replace (Z.min s (len chunk)) with s by lia.
      rewrite drop_app_length'; [reflexivity|].
      rewrite length_drop. unfold len in *. lia.
    + rewrite drop_ge by (rewrite np_roll_length; unfold len in *; lia).
      replace (Z.to_nat (len chunk - s)) with 0%nat by lia.
      now rewrite take_0.
  - apply Z.ltb_lt in Hneg.
    replace (s =? 0) with false by (symmetry; apply Z.eqb_neq; lia).
    cbn [negb]. unfold assign_slice, clip_bound. rewrite !Hr.
    replace (s <? 0) with true by (symmetry; apply Z.ltb_lt; lia).
    replace (len chunk <? 0) with false by (symmetry; apply Z.ltb_ge; lia).
    set (l := Z.max 0 (Z.min (s + len chunk) (len chunk))).
    replace (Z.max 0 (Z.min (len chunk) (len chunk))) with (len chunk)
      by lia.
    replace (Z.max l (len chunk)) with (len chunk) by lia.
    rewrite (drop_ge (np_roll chunk s))
      by (rewrite np_roll_length; unfold len; lia).
    rewrite app_nil_r.
    replace (Z.to_nat (len chunk - l))
      with (Z.to_nat (Z.min (- s) (len chunk))) by lia.
    f_equal.
    destruct (Z_lt_le_dec (- s) (len chunk)) as [Hin|Hout].
    + unfold np_roll.
      replace (len chunk =? 0) with false
        by (symmetry; apply Z.eqb_neq; lia).
      replace (s mod len chunk) with (len chunk + s)
        by (apply Z.mod_unique with (q := -1); lia).
      replace (len chunk + s =? 0) with false
        by (symmetry; apply Z.eqb_neq; lia).
      rewrite slice_from_last, slice_to_last by lia.
      replace (Z.to_nat (len chunk - (len chunk + s)))
        with (Z.to_nat (Z.min (- s) (len chunk))) by lia.
      rewrite take_app_length'; [reflexivity|].
      rewrite length_drop. unfold l, len in *. lia.
    + replace (Z.to_nat l) with 0%nat by lia.
      rewrite take_0, drop_ge; [reflexivity | unfold len in *; lia].
  - apply Z.ltb_ge in Hpos, Hneg.
    now replace (s =? 0) with true by (symmetry; apply Z.eqb_eq; lia).
Qed.

Lemma roll_and_clear_length (chunk : list float) (s : Z) :
  length (roll_and_clear chunk s) = length chunk.
Proof.
  rewrite roll_and_clear_eq.
  destruct (0 <? s); [|destruct (s <? 0); [|reflexivity]];
    rewrite length_app, length_replicate;
    [rewrite length_take | rewrite length_drop]; unfold len; lia.
Qed.

(** ** Loops that rebuild a buffer chunk by chunk *)

Lemma concat_uniform_length {A : Type} (chunks : list (list A)) (n : nat) :
  Forall (fun chunk => length chunk = n) chunks ->
  length (concat chunks) = (length chunks * n)%nat.
Proof.
  induction 1 as [|chunk chunks Hc _ IH]; [reflexivity|].
  cbn [concat length]. rewrite length_app, IH, Hc. lia.
Qed.

(** The [k]-th chunk of a concatenation of chunks of one size. *)
Lemma concat_nth_chunk {A : Type} (chunks : list (list A)) (n k : nat)
    (chunk : list A) :
  Forall (fun c => length c = n) (take k chunks) ->
  chunks !! k = Some chunk -> length chunk = n ->
  take n (drop (k * n) (concat chunks)) = chunk.
Proof.
  intros Hbefore Hk Hlen.
  rewrite <- (take_drop_middle chunks k chunk Hk).
  rewrite concat_app. cbn [concat].
  rewrite drop_app_length'.
  - now rewrite take_app_length' by (symmetry; exact Hlen).
  - rewrite (concat_uniform_length _ n Hbefore), length_take.
    apply lookup_lt_Some in Hk. lia.
Qed.

Section ChunkLoop.
Context {A : Type}.
Variables (audio : list A) (c : Z).
Variable body : Z -> list A -> result (list A).
Variable R : Z -> list A -> Prop.

(** What one turn of such a loop does: it appends a chunk of the size of
    the slice at its offset, the slice itself when that is not a full
    chunk, and a chunk related to the offset by [R]. *)
Hypothesis body_appends :
  forall i acc out,
    body i acc = Ok out ->
    exists chunk,
      out = acc ++ chunk
      /\ length chunk = length (slice audio i (i + c))
      /\ (len (slice audio i (i + c)) <> c ->
          chunk = slice audio i (i + c))
      /\ R i chunk.

Lemma chunk_loop_chunks (l : list Z) :
  forall acc out,
    for_each body l acc = Ok out ->
    exists chunks,
      out = acc ++ concat chunks
      /\ Forall2
           (fun i chunk =>
              length chunk = length (slice audio i (i + c))
              /\ (len (slice audio i (i + c)) <> c ->
                  chunk = slice audio i (i + c))
              /\ R i chunk)
           l chunks.
Proof.
  induction l as [|i l IH]; intros acc out H.
  - injection H as <-. exists []. cbn. now rewrite app_nil_r.
  - cbn [for_each] in H. bind_inv H as acc' Hacc'.
    apply body_appends in Hacc'.
    destruct Hacc' as [chunk [-> Hchunk]].
    apply IH in H. destruct H as [chunks [-> Hchunks]].
    exists (chunk :: chunks). cbn [concat].
    split; [now rewrite app_assoc | now constructor].
Qed.

Lemma chunk_loop_length_sum (l : list Z) (acc out : list A) :
  for_each body l acc = Ok out ->
  length out
  = (length acc
     + length (concat (map (fun i => slice audio i (i + c)) l)))%nat.
Proof.
  intros H. apply chunk_loop_chunks in H.
  destruct H as [chunks [-> Hchunks]]. rewrite length_app. f_equal.
  induction Hchunks as [|i chunk l chunks [Hlen _] _ IH]; [reflexivity|].
  cbn [map concat]. rewrite !length_app. lia.
Qed.

(** The rebuilt buffer has the size of the input. *)
Lemma chunk_loop_length (out : list A) :
  0 < c ->
  for_each body (chunk_starts (len audio) c) [] = Ok out ->
  length out = length audio.
Proof.
  intros Hc H. apply chunk_loop_length_sum in H.
  now rewrite H, concat_slices.
Qed.

(** From the start of the last, partial chunk on, the rebuilt buffer is the
    input. *)
Lemma chunk_loop_tail (out : list A) :
  0 < c ->
  for_each body (chunk_starts (len audio) c) [] = Ok out ->
  drop (Z.to_nat (len audio / c * c)) out
  = drop (Z.to_nat (len audio / c * c)) audio.
Proof.
  intros Hc H.
  pose proof (chunk_loop_length out Hc H) as Hlen.
  pose proof (len_nonneg audio) as Hn.
  pose proof (Z.div_mod (len audio) c ltac:(lia)) as Hdm.
  pose proof (Z.mod_pos_bound (len audio) c Hc) as Hb.
  assert (Hq : 0 <= len audio / c) by (apply Z.div_pos; lia).
  destruct (Z.eq_dec (len audio mod c) 0) as [Hr|Hr].
  - rewrite !drop_ge; [reflexivity | |]; unfold len in *; nia.
  - rewrite chunk_starts_snoc, for_each_app in H by assumption.
    bind_inv H as acc Hacc. cbn [for_each] in H.
    bind_inv H as out' Hout. injection H as <-.
    apply chunk_loop_length_sum in Hacc. cbn [length plus] in Hacc.
    rewrite List.map_map in Hacc.
    erewrite List.map_ext in Hacc
      by (intros k; rewrite Z.add_0_l; apply slice_chunk; exact Hc).
    rewrite concat_chunks, length_take in Hacc.
    set (start := len audio / c * c) in *.
    assert (Hstart : length acc = Z.to_nat start)
      by (unfold start, len in *; nia).
    assert (Hslice : slice audio start (start + c)
                     = drop (Z.to_nat start) audio).
    { unfold start.
      replace (len audio / c) with (Z.of_nat (Z.to_nat (len audio / c)))
        by lia.
      rewrite slice_chunk by exact Hc.
      replace (Z.to_nat (len audio / c) * Z.to_nat c)%nat
        with (Z.to_nat (Z.of_nat (Z.to_nat (len audio / c)) * c)) by nia.
      apply take_ge. rewrite length_drop. unfold len in *. nia. }
    apply body_appends in Hout.
    destruct Hout as [chunk [-> [_ [Hpart _]]]].
    rewrite drop_app_length' by (symmetry; exact Hstart).
    rewrite Hpart; [exact Hslice|].
    rewrite Hslice. unfold len. rewrite length_drop.
    unfold start, len in *. nia.
Qed.

(** Every full chunk of the rebuilt buffer is related by [R] to its
    offset. *)
Lemma chunk_loop_nth (out : list A) (k : nat) :
  0 < c ->
  for_each body (chunk_starts (len audio) c) [] = Ok out ->
  Z.of_nat k < len audio / c ->
  R (Z.of_nat k * c)
    (take (Z.to_nat c) (drop (k * Z.to_nat c) out)).
Proof.
  intros Hc H Hk.
  pose proof (len_nonneg audio) as Hn.
  pose proof (Z.div_mod (len audio) c ltac:(lia)) as Hdm.
  pose proof (Z.mod_pos_bound (len audio) c Hc) as Hb.
  apply chunk_loop_chunks in H. destruct H as [chunks [-> Hchunks]].
  cbn [app].
  assert (Hfull : forall j : nat,
             Z.of_nat j < len audio / c ->
             length (slice audio (Z.of_nat j * c) (Z.of_nat j * c + c))
             = Z.to_nat c).
  { intros j Hj. rewrite slice_chunk by exact Hc.
    rewrite length_take, length_drop. unfold len in *. nia. }
  assert (Hstart : forall j : nat,
             Z.of_nat j < len audio / c ->
             chunk_starts (len audio) c !! j = Some (Z.of_nat j * c)).
  { intros j Hj. unfold chunk_starts.
    rewrite list_lookup_fmap, lookup_seq_lt; [reflexivity|].
    pose proof (range_length_covers (len audio) c Hc Hn).
    pose proof (range_length_nonneg (len audio) c Hc). nia. }
  assert (Hchunk : forall j : nat,
             Z.of_nat j < len audio / c ->
             exists chunk,
               chunks !! j = Some chunk
               /\ length chunk = Z.to_nat c
               /\ R (Z.of_nat j * c) chunk).
  { intros j Hj.
    destruct (Forall2_lookup_l _ _ _ _ _ Hchunks (Hstart j Hj))
      as [chunk [Hlook [Hlen [_ HR]]]].
    exists chunk. rewrite Hlen, Hfull by exact Hj. auto. }
  destruct (Hchunk k Hk) as [chunk [Hlook [Hlen HR]]].
  rewrite (concat_nth_chunk chunks (Z.to_nat c) k chunk);
    [exact HR | | exact Hlook | exact Hlen].
  apply Forall_forall. intros ch Hin.
  apply list_elem_of_lookup in Hin. destruct Hin as [j Hj].
  apply lookup_take_Some in Hj. destruct Hj as [Hj Hjk].
  destruct (Hchunk j ltac:(lia)) as [ch' [Hlook' [Hlen' _]]].
  congruence.
Qed.

End ChunkLoop.

(** ** The time-shift encoder *)

Lemma encode_timing_chunk_appends (audio norm : list float) (max_shift : Z) :
  forall i acc out,
    encode_timing_chunk audio norm max_shift i acc = Ok out ->
    exists chunk,
      out = acc ++ chunk
      /\ length chunk = length (slice audio i (i + 512))
      /\ (len (slice audio i (i + 512)) <> 512 ->
          chunk = slice audio i (i + 512))
      /\ (len (slice audio i (i + 512)) = 512 ->
          exists s,
            chunk_shift norm max_shift 512 i = Ok s
            /\ chunk = roll_and_clear (slice audio i (i + 512)) s).
Proof.
  intros i acc out H. unfold encode_timing_chunk in H.
  bind_inv H as chunk Hchunk. injection H as <-.
  exists chunk. split; [reflexivity|].
  destruct (len (slice audio i (i + 512)) =? 512) eqn:Hfull.
  - apply Z.eqb_eq in Hfull.
    bind_inv Hchunk as q Hq.
    bind_inv Hchunk as pattern_idx Hidx.
    bind_inv Hchunk as x Hx.
    bind_inv Hchunk as m Hm.
    bind_inv Hchunk as s Hs.
    injection Hchunk as <-.
    split; [apply roll_and_clear_length|].
    split; [intros Hne; contradiction|].
    intros _. exists s. split; [|reflexivity].
    unfold chunk_shift. rewrite Hq. cbn [bind]. rewrite Hidx. cbn [bind].
    rewrite Hx. cbn [bind]. rewrite Hm. cbn [bind]. exact Hs.
  - apply Z.eqb_neq in Hfull. injection Hchunk as <-.
    split; [reflexivity|]. split; [reflexivity|].
    intros Hne. contradiction.
Qed.

Lemma encode_timing_fractal_Ok (audio pattern : list float)
    (max_shift_ms : option float) (out : list float) :
  encode_timing_fractal audio pattern max_shift_ms = Ok out ->
  exists max_shift peak,
    py_int (match max_shift_ms with
            | None => 2
            | Some s => s
            end / 1000 * 44100)%float = Ok max_shift
    /\ np_max (map abs pattern) = Ok peak
    /\ for_each
         (encode_timing_chunk audio (map (fun x => x / peak)%float pattern)
            max_shift)
         (chunk_starts (len audio) 512) [] = Ok out.
Proof.
  unfold encode_timing_fractal. intros H.
  bind_inv H as max_shift Hshift.
  bind_inv H as peak Hpeak.
  bind_inv H as starts Hstarts.
  exists max_shift, peak. repeat split; try assumption.
  injection Hstarts as <-. exact H.
Qed.

(** X1.  In [encode_timing_fractal], rolling a chunk by a non-zero number of
    samples and clearing the slice that came round the edge is a shift that
    fills with zeros: a positive count [s] gives [min(s, n)] zeros followed
    by the first [n - s] samples, a negative one gives the samples from
    [min(-s, n)] on followed by that many zeros, so no sample wraps around
    and a shift of [n] or more samples silences the chunk. *)
Theorem time_shift_fills_with_zeros (chunk : list float) (shift_samples : Z) :
  roll_and_clear chunk shift_samples
  = if 0 <? shift_samples then
      replicate (Z.to_nat (Z.min shift_samples (len chunk))) 0%float
      ++ take (Z.to_nat (len chunk - shift_samples)) chunk
    else if shift_samples <? 0 then
      drop (Z.to_nat (Z.min (- shift_samples) (len chunk))) chunk
      ++ replicate (Z.to_nat (Z.min (- shift_samples) (len chunk))) 0%float
    else chunk.
Proof. apply roll_and_clear_eq. Qed.

(** X2.  The buffer that [encode_timing_fractal] returns has the length of
    the input buffer, and from the start of the trailing partial chunk
    (offset [(len // 512) * 512]) on it holds the samples of the input. *)
Theorem encode_timing_fractal_length_and_tail (audio fractal_pattern : list float)
    (max_shift_ms : option float) (out : list float) :
  encode_timing_fractal audio fractal_pattern max_shift_ms = Ok out ->
  length out = length audio
  /\ drop (Z.to_nat (len audio / 512 * 512)) out
     = drop (Z.to_nat (len audio / 512 * 512)) audio.
Proof.
  intros H. apply encode_timing_fractal_Ok in H.
  destruct H as [max_shift [peak [_ [_ H]]]].
  split.
  - eapply chunk_loop_length; [apply encode_timing_chunk_appends | lia | exact H].
  - eapply chunk_loop_tail; [apply encode_timing_chunk_appends | lia | exact H].
Qed.

Lemma encode_timing_fractal_length_and_tail_witness :
  exists out,
    encode_timing_fractal short_sawtooth sample_pattern None = Ok out
    /\ length out = length short_sawtooth
    /\ drop 1024 out = drop 1024 short_sawtooth.
Proof.
  eexists. split; [vm_compute; reflexivity|].
  apply (encode_timing_fractal_length_and_tail short_sawtooth sample_pattern None).
  vm_compute. reflexivity.
Defined.

(** X3.  Every full chunk of the buffer that [encode_timing_fractal]
    returns is the chunk of the input at the same offset, rolled and cleared
    by the shift computed for that chunk from the normalised pattern: chunks
    do not influence one another. *)
Theorem encode_timing_fractal_chunkwise (audio fractal_pattern : list float)
    (max_shift_ms : option float) (out : list float) (k : nat) :
  encode_timing_fractal audio fractal_pattern max_shift_ms = Ok out ->
  Z.of_nat k < len audio / 512 ->
  exists max_shift_samples peak shift_samples,
    py_int (match max_shift_ms with
            | None => 2
            | Some s => s
            end / 1000 * 44100)%float = Ok max_shift_samples
    /\ np_max (map abs fractal_pattern) = Ok peak
    /\ chunk_shift (map (fun x => x / peak)%float fractal_pattern)
         max_shift_samples 512 (Z.of_nat k * 512) = Ok shift_samples
    /\ take 512 (drop (k * 512) out)
       = roll_and_clear (take 512 (drop (k * 512) audio)) shift_samples.
Proof.
  intros H Hk. apply encode_timing_fractal_Ok in H.
  destruct H as [max_shift [peak [Hshift [Hpeak H]]]].
  exists max_shift, peak.
  pose proof (chunk_loop_nth audio 512 _ _
                (encode_timing_chunk_appends audio _ max_shift)
                out k ltac:(lia) H Hk) as HR.
  cbv beta in HR. rewrite slice_chunk in HR by lia.
  change (Z.to_nat 512) with 512%nat in HR.
  destruct HR as [s [Hs Hchunk]].
  - pose proof (len_nonneg audio) as Hn.
    pose proof (Z.div_mod (len audio) 512 ltac:(lia)) as Hdm.
    pose proof (Z.mod_pos_bound (len audio) 512 ltac:(lia)) as Hb.
    unfold len in *. rewrite length_take, length_drop. lia.
  - exists s. auto.
Qed.

Lemma encode_timing_fractal_chunkwise_witness :
  exists out shift_samples,
    encode_timing_fractal short_sawtooth sample_pattern None = Ok out
    /\ chunk_shift (map (fun x => x / 1)%float sample_pattern) 88 512 512
       = Ok shift_samples
    /\ take 512 (drop 512 out)
       = roll_and_clear (take 512 (drop 512 short_sawtooth)) shift_samples.
Proof.
  eexists.
  destruct (encode_timing_fractal_chunkwise short_sawtooth sample_pattern None
              _ 1%nat ltac:(vm_compute; reflexivity)
              ltac:(vm_compute; reflexivity))
    as [max_shift [peak [s [Hshift [Hpeak [Hs Hchunk]]]]]].
  injection Hshift as <-. injection Hpeak as <-.
  exists s. split; [reflexivity|]. split; [exact Hs | exact Hchunk].
Defined.

(** ** The detector of timing_test.py *)

Lemma generate_fractal_pattern_100 `{Py : Python} `{Rng : NumpyRandom}
    (secret : HashSecret) (seed : string) :
  generate_fractal_pattern secret seed 100
  = Ok (spec_generate
          (RandomState_seed (py_hash secret seed mod 2 ^ 32)) 100).
Proof.
  unfold generate_fractal_pattern.
  rewrite new_RandomState_mod. cbn [bind].
  apply midpoint_displacement_spec. lia.
Qed.

Lemma chunk_starts_exact (n c : Z) :
  0 < c -> 0 <= n -> n mod c = 0 ->
  chunk_starts n c
  = map (fun k : nat => 0 + Z.of_nat k * c) (seq 0 (Z.to_nat (n / c))).
Proof.
  intros Hc Hn Hr. unfold chunk_starts, range_length.
  replace (0 <? c) with true by (symmetry; apply Z.ltb_lt; lia).
  pose proof (Z.div_mod n c ltac:(lia)) as Hdm.
  destruct (0 <? n) eqn:Hpos.
  - apply Z.ltb_lt in Hpos.
    assert (Hq : 0 < n / c) by nia.
    replace ((n - 0 - 1) / c + 1) with (n / c); [reflexivity|].
    assert ((n - 0 - 1) / c = n / c - 1); [|lia].
    symmetry. apply Z.div_unique with (r := c - 1); lia.
  - apply Z.ltb_ge in Hpos. replace n with 0 by lia. reflexivity.
Qed.

Lemma slice_chunk_full {A : Type} (a : list A) (c : Z) (k : nat) :
  0 < c ->
  (len (slice a (Z.of_nat k * c) (Z.of_nat k * c + c)) =? c)
  = (Z.of_nat k * c + c <=? len a).
Proof.
  intros Hc. rewrite slice_chunk by exact Hc.
  unfold len. rewrite length_take, length_drop.
  destruct (Z.of_nat k * c + c <=? Z.of_nat (length a)) eqn:E.
  - apply Z.leb_le in E. apply Z.eqb_eq. nia.
  - apply Z.leb_gt in E. apply Z.eqb_neq. nia.
Qed.

Section DetectorFacts.
Context `{Py : Python} `{Rng : NumpyRandom} `{St : NumpyStats}.

(** The score of the chunk at an offset, when both buffers hold a full
    chunk there. *)
Lemma detect_timing_chunk_full (original test : list float) (c : Z) (k : nat)
    (scores : list float) :
  0 < c -> Z.of_nat k * c + c <= Z.min (len original) (len test) ->
  exists score,
    forall scores,
      detect_timing_chunk original test c (Z.of_nat k * c) scores
      = Ok (scores ++ [score]).
Proof.
  intros Hc Hk. unfold detect_timing_chunk.
  rewrite !slice_chunk_full by exact Hc.
  replace (Z.of_nat k * c + c <=? len original) with true
    by (symmetry; apply Z.leb_le; lia).
  replace (Z.of_nat k * c + c <=? len test) with true
    by (symmetry; apply Z.leb_le; lia).
  cbn [andb].
  set (a := slice original (Z.of_nat k * c) (Z.of_nat k * c + c)).
  set (v := slice test (Z.of_nat k * c) (Z.of_nat k * c + c)).
  assert (Ha : length a = Z.to_nat c).
  { unfold a. rewrite slice_chunk by exact Hc.
    rewrite length_take, length_drop. unfold len in *. nia. }
  assert (Hv : length v = Z.to_nat c).
  { unfold v. rewrite slice_chunk by exact Hc.
    rewrite length_take, length_drop. unfold len in *. nia. }
  assert (Hne : a <> []) by (intros E; rewrite E in Ha; cbn in Ha; lia).
  pose proof (np_correlate_valid_length a v Hne ltac:(lia)) as Hcorr.
  unfold correlate_valid.
  destruct a as [|a0 a']; [contradiction|].
  destruct v as [|v0 v']; [cbn in Hv; lia|].
  cbn [bind].
  destruct (np_correlate_valid (a0 :: a') (v0 :: v')) as [|score [|? ?]];
    cbn in Hcorr; try lia.
  exists score. reflexivity.
Qed.

Lemma detect_timing_chunk_partial (original test : list float) (c : Z)
    (k : nat) (scores : list float) :
  0 < c -> Z.min (len original) (len test) < Z.of_nat k * c + c ->
  detect_timing_chunk original test c (Z.of_nat k * c) scores = Ok scores.
Proof.
  intros Hc Hk. unfold detect_timing_chunk.
  rewrite !slice_chunk_full by exact Hc.
  destruct (Z.of_nat k * c + c <=? len original) eqn:Eo;
    [|reflexivity].
  destruct (Z.of_nat k * c + c <=? len test) eqn:Et; [|reflexivity].
  apply Z.leb_le in Eo, Et. lia.
Qed.

(** The scores over the first [q] offsets, all of them full chunks. *)
Lemma detect_timing_full_chunks (original test : list float) (c : Z) :
  0 < c ->
  forall (q : nat) (scores : list float),
    Z.of_nat q * c <= Z.min (len original) (len test) ->
    exists more,
      for_each (detect_timing_chunk original test c)
        (map (fun k : nat => 0 + Z.of_nat k * c) (seq 0 q)) scores
      = Ok (scores ++ more)
      /\ length more = q.
Proof.
  intros Hc q. induction q as [|q IH]; intros scores Hq.
  - exists []. cbn. now rewrite app_nil_r.
  - destruct (IH scores ltac:(lia)) as [more [Hrun Hlen]].
    destruct (detect_timing_chunk_full original test c q scores Hc
                ltac:(lia)) as [score Hscore].
    exists (more ++ [score]).
    rewrite seq_S, List.map_app, for_each_app, Hrun. cbn [bind plus map].
    cbn [for_each]. rewrite Z.add_0_l, Hscore. cbn [bind].
    split; [now rewrite app_assoc | rewrite length_app; cbn; lia].
Qed.

End DetectorFacts.

(** X4.  [detect_timing_fractal] does not look at the seed: for the same two
    buffers and chunk size it gives the same result (or the same exception)
    for every seed and in every interpreter run, the pattern that it
    generates from the seed being dropped. *)
Theorem detect_timing_fractal_ignores_seed `{Py : Python}
    `{Rng : NumpyRandom} `{St : NumpyStats}
    (secret1 secret2 : HashSecret) (seed1 seed2 : string)
    (original_audio test_audio : list float) (chunk_size : Z) :
  detect_timing_fractal secret1 original_audio test_audio seed1 chunk_size
  = detect_timing_fractal secret2 original_audio test_audio seed2 chunk_size.
Proof.
  unfold detect_timing_fractal.
  rewrite (generate_fractal_pattern_100 secret1 seed1).
  rewrite (generate_fractal_pattern_100 secret2 seed2).
  cbn [bind]. reflexivity.
Qed.

(** The run of the detector for a positive chunk size. *)
Lemma detect_timing_fractal_run `{Py : Python} `{Rng : NumpyRandom}
    `{St : NumpyStats} (secret : HashSecret) (seed : string)
    (original_audio test_audio : list float) (chunk_size : Z) :
  0 < chunk_size ->
  exists scores,
    detect_timing_fractal secret original_audio test_audio seed chunk_size
    = Ok (np_mean scores, scores)
    /\ len scores
       = Z.min (len original_audio) (len test_audio) / chunk_size.
Proof.
  intros Hc. unfold detect_timing_fractal.
  rewrite generate_fractal_pattern_100. cbn [bind].
  rewrite py_range_nonzero by lia. cbn [bind].
  set (n := Z.min (len original_audio) (len test_audio)).
  fold (chunk_starts n chunk_size).
  assert (Hn : 0 <= n)
    by (unfold n; pose proof (len_nonneg original_audio);
        pose proof (len_nonneg test_audio); lia).
  pose proof (Z.div_mod n chunk_size ltac:(lia)) as Hdm.
  pose proof (Z.mod_pos_bound n chunk_size Hc) as Hb.
  assert (Hq : 0 <= n / chunk_size) by (apply Z.div_pos; lia).
  destruct (detect_timing_full_chunks original_audio test_audio chunk_size
              Hc (Z.to_nat (n / chunk_size)) [] ltac:(fold n; nia))
    as [scores [Hrun Hlen]].
  cbn [app] in Hrun. exists scores.
  split; [|unfold len; lia].
  destruct (Z.eq_dec (n mod chunk_size) 0) as [Hr|Hr].
  - rewrite chunk_starts_exact by assumption. now rewrite Hrun.
  - rewrite chunk_starts_snoc, for_each_app, Hrun by assumption.
    cbn [bind for_each].
    replace (n / chunk_size)
      with (Z.of_nat (Z.to_nat (n / chunk_size))) at 1 by lia.
    rewrite detect_timing_chunk_partial; [reflexivity | exact Hc |].
    fold n. nia.
Qed.

(** X5.  For a positive chunk size, [detect_timing_fractal] returns without
    an exception: one score for every full chunk that both buffers hold,
    that is [min(len(original), len(test)) // chunk_size] scores, and their
    mean as the average, also when there is no score at all. *)
Theorem detect_timing_fractal_scores `{Py : Python} `{Rng : NumpyRandom}
    `{St : NumpyStats} (secret : HashSecret) (seed : string)
    (original_audio test_audio : list float) (chunk_size : Z) :
  0 < chunk_size ->
  exists scores,
    detect_timing_fractal secret original_audio test_audio seed chunk_size
    = Ok (np_mean scores, scores)
    /\ len scores
       = Z.min (len original_audio) (len test_audio) / chunk_size.
Proof. apply detect_timing_fractal_run. Qed.

Lemma detect_timing_fractal_scores_witness :
  0 < 4
  /\ exists scores,
      detect_timing_fractal (Py := CPython.python)
        (Rng := MT19937.numpy_random) (St := ReferenceStats.numpy_stats)
        (CPython.secret_of_PYTHONHASHSEED 0) ramp ramp
        "artist_fractal_seed_123" 4
      = Ok (Reference.mean scores, scores)
      /\ len scores = Z.min (len ramp) (len ramp) / 4.
Proof.
  split; [lia|].
  apply (detect_timing_fractal_scores (Py := CPython.python)
           (Rng := MT19937.numpy_random) (St := ReferenceStats.numpy_stats)).
  lia.
Defined.

(** ** The multi-track orchestrator *)

Lemma for_each_raises {I S : Type} (body : I -> S -> result S)
    (l1 l2 : list I) (x : I) :
  (forall s, exists e, body x s = Raise e) ->
  forall s, exists e, for_each body (l1 ++ x :: l2) s = Raise e.
Proof.
  intros Hx s. rewrite for_each_app.
  destruct (for_each body l1 s) as [s'|e]; [|cbn; eauto].
  cbn [bind for_each]. destruct (Hx s') as [e ->]. cbn. eauto.
Qed.

Lemma py_range_count (count : Z) :
  py_range 0 count 1
  = Ok (map (fun k : nat => Z.of_nat k) (seq 0 (Z.to_nat count))).
Proof.
  rewrite py_range_nonzero by lia. f_equal.
  replace (range_length 0 count 1) with (Z.max 0 count).
  - replace (Z.to_nat (Z.max 0 count)) with (Z.to_nat count) by lia.
    apply List.map_ext. intros k. lia.
  - unfold range_length. cbn [Z.ltb Z.compare].
    destruct (0 <? count) eqn:E.
    + apply Z.ltb_lt in E. rewrite Z.div_1_r. lia.
    + apply Z.ltb_ge in E. lia.
Qed.

Section OrchestratorFacts.
Context `{Py : Python} `{Rng : NumpyRandom} `{Np : NumpySignal}.

Lemma generate_fractal_family_eq (self : MultiTrackOrchestrator)
    (secret : HashSecret) (master_seed : string) (count : Z) :
  generate_fractal_family self secret master_seed count
  = Ok (map (fun k : nat => family_pattern secret master_seed (Z.of_nat k))
            (seq 0 (Z.to_nat count))).
Proof.
  unfold generate_fractal_family. rewrite py_range_count. cbn [bind].
  rewrite for_each_append
    with (g := fun i => [family_pattern secret master_seed i]).
  - cbn [app]. f_equal. rewrite List.map_map.
    induction (seq 0 (Z.to_nat count)) as [|k l IH]; [reflexivity|].
    cbn [map concat app]. now rewrite IH.
  - intros i acc _. rewrite generate_fractal_pattern_100. cbn [bind].
    unfold family_pattern. reflexivity.
Qed.

Lemma encode_single_track_eq (self : MultiTrackOrchestrator)
    (audio pattern : list float) (strength_ms : float) (band : string) :
  encode_single_track self audio pattern strength_ms band
  = encode_phase_fractal audio pattern strength_ms 2048.
Proof. reflexivity. Qed.

(** The fourth track has no frequency band. *)
Lemma encode_track_fourth (self : MultiTrackOrchestrator)
    (family : list (list float)) (strengths : list float)
    (track : string * list float) (encoded : list (string * list float)) :
  exists e,
    encode_track self family strengths ["low"; "mid"; "high"]%string
      (3, track) encoded
    = Raise e.
Proof.
  unfold encode_track. destruct track as [name audio].
  destruct (getitem family 3) as [pattern|e]; [cbn [bind] | eauto].
  destruct (getitem strengths 3) as [strength|e]; [cbn [bind] | eauto].
  cbn. eauto.
Qed.

Lemma dict_set_new {V : Type} (d : list (string * V)) (k : string) (v : V) :
  ~ In k (map fst d) -> dict_set d k v = d ++ [(k, v)].
Proof.
  intros Hk. unfold dict_set.
  destruct (existsb (fun kv => String.eqb (fst kv) k) d) eqn:E;
    [|reflexivity].
  exfalso. apply Hk. apply existsb_exists in E.
  destruct E as [kv [Hin Heq]]. apply String.eqb_eq in Heq.
  rewrite <- Heq. now apply List.in_map.
Qed.

(** The loop of [encode_multi_track] over tracks with fresh names. *)
Lemma encode_tracks_shape (self : MultiTrackOrchestrator)
    (family : list (list float)) (strengths : list float)
    (bands : list string) (tracks : list (string * list float)) :
  forall (indices : list Z) (encoded out : list (string * list float)),
    length indices = length tracks ->
    NoDup (map fst encoded ++ map fst tracks) ->
    for_each (encode_track self family strengths bands)
             (combine indices tracks) encoded = Ok out ->
    exists more,
      out = encoded ++ more
      /\ map fst more = map fst tracks
      /\ Forall2 (fun track enc => length (snd enc) = length (snd track))
                 tracks more.
Proof.
  induction tracks as [|[name audio] tracks IH];
    intros indices encoded out Hlen Hnodup H.
  - destruct indices; [|discriminate]. injection H as <-.
    exists []. rewrite app_nil_r. repeat split. constructor.
  - destruct indices as [|i indices]; [discriminate|].
    cbn [combine for_each] in H. bind_inv H as encoded' Hstep.
    unfold encode_track in Hstep.
    bind_inv Hstep as pattern Hp. bind_inv Hstep as strength Hs.
    bind_inv Hstep as band Hb. bind_inv Hstep as enc Henc.
    injection Hstep as <-.
    rewrite encode_single_track_eq in Henc.
    apply encode_phase_fractal_length in Henc; [|lia].
    cbn [map fst] in Hnodup.
    rewrite dict_set_new in H.
    + apply IH in H.
      * destruct H as [more [-> [Hnames Hlens]]].
        exists ((name, enc) :: more). rewrite <- app_assoc. cbn [app].
        split; [reflexivity|]. split; [cbn; now rewrite Hnames|].
        constructor; [exact Henc | exact Hlens].
      * cbn in Hlen. lia.
      * rewrite List.map_app, <- app_assoc. exact Hnodup.
    + apply NoDup_app in Hnodup. destruct Hnodup as [_ [Hdisj _]].
      intros Hin. apply list_elem_of_In in Hin.
      apply (Hdisj name Hin). left.
Qed.

End OrchestratorFacts.

(** X6.  [generate_fractal_family] never raises: it returns [count] patterns
    (none for a negative count), the one at index [i] being the pattern that
    [generate_fractal_pattern] gives for the seed
    [f"{master_seed}_track_{i}"]; each has length 100 and ends in the zero
    that the generator never overwrites. *)
Theorem generate_fractal_family_patterns `{Py : Python} `{Rng : NumpyRandom}
    (self : MultiTrackOrchestrator) (secret : HashSecret)
    (master_seed : string) (count : Z) :
  exists patterns,
    generate_fractal_family self secret master_seed count = Ok patterns
    /\ len patterns = Z.max 0 count
    /\ forall i : nat,
        Z.of_nat i < count ->
        exists pattern,
          patterns !! i = Some pattern
          /\ generate_fractal_pattern secret
               (master_seed ++ "_track_" ++ py_str_int (Z.of_nat i))%string
               100
             = Ok pattern
          /\ len pattern = 100
          /\ pattern !! 99%nat = Some 0%float.
Proof.
  eexists. split; [apply generate_fractal_family_eq|].
  split; [unfold len; rewrite length_map, length_seq; lia|].
  intros i Hi. exists (family_pattern secret master_seed (Z.of_nat i)).
  split.
  - rewrite list_lookup_fmap, lookup_seq_lt by lia. reflexivity.
  - split; [apply generate_fractal_pattern_100|].
    apply (spec_generate_last_zero _ 100). lia.
Qed.

(** X7.  [encode_multi_track] cannot encode more than three tracks: its
    list of frequency bands has three entries, so with a fourth track it
    raises, whatever the audio, the seed and the strengths, although the
    band is not used by the encoding. *)
Theorem encode_multi_track_fourth_track_raises `{Py : Python}
    `{Rng : NumpyRandom} `{Np : NumpySignal}
    (self : MultiTrackOrchestrator) (secret : HashSecret)
    (audio_tracks : list (string * list float)) (fractal_seed : string)
    (strengths : option (list float)) :
  3 < len audio_tracks ->
  exists e,
    encode_multi_track self secret audio_tracks fractal_seed strengths
    = Raise e.
Proof.
  intros Hlen. unfold encode_multi_track.
  rewrite generate_fractal_family_eq. cbn [bind].
  destruct audio_tracks as [|t0 [|t1 [|t2 [|t3 rest]]]];
    try (unfold len in Hlen; cbn in Hlen; lia).
  unfold enumerate. cbn [length seq map combine].
  apply (for_each_raises _ [(_, t0); (_, t1); (_, t2)] _ (3, t3)).
  intros encoded. apply encode_track_fourth.
Qed.

Lemma encode_multi_track_fourth_track_raises_witness :
  3 < len four_tracks
  /\ exists e,
      encode_multi_track (Py := CPython.python) (Rng := MT19937.numpy_random)
        (Np := Reference.numpy_signal) MultiTrackOrchestrator_init
        (CPython.secret_of_PYTHONHASHSEED 0) four_tracks
        "wooden_box_song_2024" None
      = Raise e.
Proof.
  split; [reflexivity|].
  apply (encode_multi_track_fourth_track_raises (Py := CPython.python)
           (Rng := MT19937.numpy_random) (Np := Reference.numpy_signal)).
  reflexivity.
Defined.

(** X8.  When [encode_multi_track] returns, the dict it returns has the
    track names of the input dict, in the same order, and every encoded
    track has the length of its input track. *)
Theorem encode_multi_track_names_and_lengths `{Py : Python}
    `{Rng : NumpyRandom} `{Np : NumpySignal}
    (self : MultiTrackOrchestrator) (secret : HashSecret)
    (audio_tracks : list (string * list float)) (fractal_seed : string)
    (strengths : option (list float))
    (encoded_tracks : list (string * list float)) :
  NoDup (map fst audio_tracks) ->
  encode_multi_track self secret audio_tracks fractal_seed strengths
  = Ok encoded_tracks ->
  map fst encoded_tracks = map fst audio_tracks
  /\ Forall2 (fun track enc => length (snd enc) = length (snd track))
       audio_tracks encoded_tracks.
Proof.
  intros Hnodup H. unfold encode_multi_track in H.
  bind_inv H as family Hfamily.
  apply encode_tracks_shape in H.
  - destruct H as [more [-> [Hnames Hlens]]]. now cbn [app].
  - now rewrite length_map, length_seq.
  - exact Hnodup.
Qed.

Lemma encode_multi_track_names_and_lengths_witness :
  exists encoded_tracks,
    encode_multi_track (Py := CPython.python) (Rng := MT19937.numpy_random)
      (Np := Reference.numpy_signal) MultiTrackOrchestrator_init
      (CPython.secret_of_PYTHONHASHSEED 0) two_tracks
      "wooden_box_song_2024" None
    = Ok encoded_tracks
    /\ map fst encoded_tracks = map fst two_tracks
    /\ Forall2 (fun track enc => length (snd enc) = length (snd track))
         two_tracks encoded_tracks.
Proof.
  eexists. split; [vm_compute; reflexivity|].
  apply (encode_multi_track_names_and_lengths (Py := CPython.python)
           (Rng := MT19937.numpy_random) (Np := Reference.numpy_signal)
           MultiTrackOrchestrator_init (CPython.secret_of_PYTHONHASHSEED 0)
           two_tracks "wooden_box_song_2024" None).
  - apply (NoDup_ListNoDup (map fst two_tracks)).
    repeat constructor; cbn; intuition discriminate.
  - vm_compute. reflexivity.
Defined.

(** ** Strengths below one sample *)

Lemma normalises_finitely_true (pattern : list float) :
  normalises_finitely pattern = true ->
  exists peak,
    np_max (map abs pattern) = Ok peak
    /\ Forall (fun x => is_finite (x / peak) = true) pattern.
Proof.
  unfold normalises_finitely. intros H.
  destruct (np_max (map abs pattern)) as [peak|e]; [|discriminate].
  exists peak. split; [reflexivity|].
  apply List.Forall_forall. now apply forallb_forall.
Qed.

Section SubSample.
Context `{Py : Python} `{Rng : NumpyRandom} `{Np : NumpySignal}.

(** A strength whose shift truncates to zero samples: every chunk passes
    through. *)
Lemma encode_sub_sample (audio pattern : list float) (strength peak : float)
    (chunk_size : Z) :
  0 < chunk_size ->
  py_int (strength / 1000 * 44100)%float = Ok 0 ->
  np_max (map abs pattern) = Ok peak ->
  Forall (fun x => is_finite (x / peak) = true) pattern ->
  encode_phase_fractal audio pattern strength chunk_size = Ok audio.
Proof.
  intros Hc Hs Hpeak Hfin. unfold encode_phase_fractal.
  rewrite Hs. cbn [bind]. rewrite Hpeak. cbn [bind].
  rewrite py_range_nonzero by lia. cbn [bind].
  fold (chunk_starts (len audio) chunk_size).
  rewrite for_each_append
    with (g := fun i => slice audio i (i + chunk_size)).
  - now rewrite concat_slices.
  - intros i acc Hi. apply encode_chunk_zero_shift.
    + exact Hc.
    + exact (chunk_starts_nonneg _ _ _ Hc Hi).
    + destruct pattern; [discriminate | discriminate].
    + apply List.Forall_map. exact Hfin.
Qed.

(** Each default strength of the orchestrator is below one sample. *)
Lemma default_strengths_sub_sample (i : Z) :
  0 <= i < 3 ->
  exists strength,
    getitem default_strengths i = Ok strength
    /\ py_int (strength / 1000 * 44100)%float = Ok 0.
Proof.
  intros Hi.
  assert (H : i = 0 \/ i = 1 \/ i = 2) by lia.
  destruct H as [-> | [-> | ->]]; eexists; split; reflexivity.
Qed.

(** The loop of [encode_multi_track] when every track's strength is below
    one sample. *)
Lemma encode_tracks_identity (self : MultiTrackOrchestrator)
    (family : list (list float)) (strengths : list float)
    (bands : list string) (tracks : list (string * list float)) :
  forall (indices : list Z) (encoded : list (string * list float)),
    length indices = length tracks ->
    NoDup (map fst encoded ++ map fst tracks) ->
    Forall (fun i =>
              exists pattern strength band peak,
                getitem family i = Ok pattern
                /\ getitem strengths i = Ok strength
                /\ getitem bands i = Ok band
                /\ py_int (strength / 1000 * 44100)%float = Ok 0
                /\ np_max (map abs pattern) = Ok peak
                /\ Forall (fun x => is_finite (x / peak) = true) pattern)
           indices ->
    for_each (encode_track self family strengths bands)
             (combine indices tracks) encoded
    = Ok (encoded ++ tracks).
Proof.
  induction tracks as [|[name audio] tracks IH];
    intros indices encoded Hlen Hnodup Hall.
  - destruct indices; [|discriminate]. cbn. now rewrite app_nil_r.
  - destruct indices as [|i indices]; [discriminate|].
    apply Forall_cons in Hall. destruct Hall as [Hi Hall].
    destruct Hi as [pattern [strength [band [peak
                     [Hp [Hs [Hb [Hzero [Hpeak Hfin]]]]]]]]].
    cbn [combine for_each]. unfold encode_track at 1.
    rewrite Hp, Hs, Hb. cbn [bind].
    rewrite encode_single_track_eq.
    rewrite (encode_sub_sample audio pattern strength peak 2048)
      by (try lia; assumption).
    cbn [bind]. cbn [map fst] in Hnodup.
    rewrite dict_set_new.
    + rewrite IH.
      * now rewrite <- app_assoc.
      * cbn in Hlen. lia.
      * rewrite List.map_app, <- app_assoc. exact Hnodup.
      * exact Hall.
    + apply NoDup_app in Hnodup. destruct Hnodup as [_ [Hdisj _]].
      intros Hin. apply list_elem_of_In in Hin.
      apply (Hdisj name Hin). left.
Qed.

End SubSample.

(** X9.  A strength below one sample leaves the audio as it is: when
    [int(strength_ms / 1000 * 44100)] is 0, [encode_audio] returns its input
    buffer for every positive chunk size and every pattern whose normalised
    copy holds finite values.  The default strength of [__init__], 0.01 ms,
    is such a strength (0.441 samples), so the encoder called without a
    strength changes nothing. *)
Theorem encode_audio_sub_sample_identity `{Np : NumpySignal}
    (self : PhaseShiftEncoder) (audio_data fractal_pattern : list float)
    (strength_ms : option float) (peak : float) :
  0 < chunk_size self ->
  py_int (match strength_ms with
          | None => default_strength self
          | Some s => s
          end / 1000 * 44100)%float = Ok 0 ->
  np_max (map abs fractal_pattern) = Ok peak ->
  Forall (fun x => is_finite (x / peak) = true) fractal_pattern ->
  encode_audio self audio_data fractal_pattern strength_ms = Ok audio_data.
Proof.
  intros Hc Hs Hpeak Hfin. rewrite encode_audio_eq.
  now apply encode_sub_sample with (peak := peak).
Qed.

Lemma encode_audio_sub_sample_identity_witness :
  0 < chunk_size PhaseShiftEncoder_init
  /\ py_int (default_strength PhaseShiftEncoder_init / 1000 * 44100)%float
     = Ok 0
  /\ np_max (map abs sample_pattern) = Ok 1%float
  /\ Forall (fun x => is_finite (x / 1) = true) sample_pattern
  /\ encode_audio (Np := Reference.numpy_signal) PhaseShiftEncoder_init
       sawtooth sample_pattern None = Ok sawtooth.
Proof.
  assert (Hfin : Forall (fun x => is_finite (x / 1) = true) sample_pattern)
    by (repeat constructor).
  split; [reflexivity|]. split; [reflexivity|]. split; [reflexivity|].
  split; [exact Hfin|].
  apply (encode_audio_sub_sample_identity (Np := Reference.numpy_signal)
           PhaseShiftEncoder_init sawtooth sample_pattern None 1%float);
    [reflexivity | reflexivity | reflexivity | exact Hfin].
Defined.

(** X10.  With its default strengths (0.01, 0.015 and 0.02 ms, each below
    one sample at 44100 Hz) [encode_multi_track] returns the dict of tracks
    it was given, every track unchanged: for at most three tracks, when the
    pattern generated for each track has a normalised copy of finite
    values. *)
Theorem encode_multi_track_default_strengths_identity `{Py : Python}
    `{Rng : NumpyRandom} `{Np : NumpySignal}
    (self : MultiTrackOrchestrator) (secret : HashSecret)
    (audio_tracks : list (string * list float)) (fractal_seed : string) :
  len audio_tracks <= 3 ->
  NoDup (map fst audio_tracks) ->
  (forall (i : Z) (pattern : list float),
      0 <= i < len audio_tracks ->
      generate_fractal_pattern secret
        (fractal_seed ++ "_track_" ++ py_str_int i)%string 100
      = Ok pattern ->
      exists peak,
        np_max (map abs pattern) = Ok peak
        /\ Forall (fun x => is_finite (x / peak) = true) pattern) ->
  encode_multi_track self secret audio_tracks fractal_seed None
  = Ok audio_tracks.
Proof.
  intros Hlen Hnodup Hpat. unfold encode_multi_track.
  rewrite generate_fractal_family_eq. cbn [bind]. unfold enumerate.
  rewrite encode_tracks_identity; [reflexivity | | exact Hnodup |].
  - now rewrite length_map, length_seq.
  - apply List.Forall_forall. intros i Hi.
    apply List.in_map_iff in Hi. destruct Hi as [k [<- Hk]].
    apply in_seq in Hk. unfold len in *.
    destruct (Hpat (Z.of_nat k)
                (family_pattern secret fractal_seed (Z.of_nat k))
                ltac:(lia) (generate_fractal_pattern_100 _ _))
      as [peak [Hpeak Hfin]].
    destruct (default_strengths_sub_sample (Z.of_nat k) ltac:(lia))
      as [strength [Hs Hzero]].
    assert (Hband : exists band,
               getitem ["low"; "mid"; "high"]%string (Z.of_nat k) = Ok band).
    { assert (Hk3 : (k = 0 \/ k = 1 \/ k = 2)%nat) by lia.
      destruct Hk3 as [-> | [-> | ->]]; eexists; reflexivity. }
    destruct Hband as [band Hband].
    exists (family_pattern secret fractal_seed (Z.of_nat k)),
           strength, band, peak.
    repeat split; try assumption.
    apply getitem_lookup; [lia|].
    rewrite Nat2Z.id, list_lookup_fmap, lookup_seq_lt by lia.
    reflexivity.
Qed.

Lemma encode_multi_track_default_strengths_identity_witness :
  encode_multi_track (Py := CPython.python) (Rng := MT19937.numpy_random)
    (Np := Reference.numpy_signal) MultiTrackOrchestrator_init
    (CPython.secret_of_PYTHONHASHSEED 0) two_tracks
    "wooden_box_song_2024" None
  = Ok two_tracks.
Proof.
  apply (encode_multi_track_default_strengths_identity
           (Py := CPython.python) (Rng := MT19937.numpy_random)
           (Np := Reference.numpy_signal)).
  - unfold len. cbn. lia.
  - apply (NoDup_ListNoDup (map fst two_tracks)).
    repeat constructor; cbn; intuition discriminate.
  - intros i pattern Hi Hgen.
    rewrite generate_fractal_pattern_100 in Hgen. apply Ok_inj in Hgen.
    subst pattern.
    assert (H : i = 0 \/ i = 1) by (unfold len in Hi; cbn in Hi; lia).
    destruct H as [-> | ->]; apply normalises_finitely_true;
      vm_compute; reflexivity.
Defined.

(** X11.  Verification accepts what the encoder returns: for a positive
    chunk size, every buffer that [encode_audio] returns for an audio buffer
    is one that [verify_encoding] returns a result for, against that audio
    buffer and for any threshold, the [ValueError] that [np.corrcoef] raises
    on buffers of two lengths being excluded; the result carries the
    coefficient of the two buffers, and its [meets_standards] is the
    comparison of that coefficient with the threshold. *)
Theorem verify_accepts_encoder_output `{Np : NumpySignal}
    (self : PhaseShiftEncoder) (audio_data fractal_pattern : list float)
    (strength_ms : option float) (encoded : list float) (threshold : float) :
  0 < chunk_size self ->
  encode_audio self audio_data fractal_pattern strength_ms = Ok encoded ->
  exists r,
    verify_encoding self audio_data encoded threshold = Ok r
    /\ correlation r = np_pearson audio_data encoded
    /\ encoding_detected r = true
    /\ meets_standards r = (threshold <? np_pearson audio_data encoded)%float.
Proof.
  intros Hc Henc. rewrite encode_audio_eq in Henc.
  apply encode_phase_fractal_length in Henc; [|exact Hc].
  unfold verify_encoding, corrcoef_01.
  rewrite Henc, Nat.eqb_refl. cbn [bind]. eexists. split; [reflexivity|].
  cbn. now rewrite andb_true_r.
Qed.

Lemma verify_accepts_encoder_output_witness :
  0 < chunk_size small_encoder
  /\ encode_audio (Np := Reference.numpy_signal) small_encoder ramp
       sample_pattern None = Ok ramp
  /\ exists r,
      verify_encoding (Np := Reference.numpy_signal) small_encoder ramp ramp
        default_threshold = Ok r
      /\ correlation r = Reference.pearson ramp ramp
      /\ encoding_detected r = true
      /\ meets_standards r
         = (default_threshold <? Reference.pearson ramp ramp)%float.
Proof.
  split; [reflexivity|]. split; [reflexivity|].
  apply (verify_accepts_encoder_output (Np := Reference.numpy_signal)
           small_encoder ramp sample_pattern None ramp default_threshold);
    reflexivity.
Defined.

(** ** The generators on short lengths and the first element *)

Section FirstElement.
Context `{Py : Python} `{Rng : NumpyRandom}.





Lemma midpoint_displacement_short (rng : RandomState) (length : Z) :
  length <= 0 ->
  midpoint_displacement rng length
  = Raise (if length <? 0 then ValueError else IndexError).
Proof.
  intros Hlen. unfold midpoint_displacement, np_zeros.
  destruct (length <? 0) eqn:Hneg; [reflexivity|].
  apply Z.ltb_ge in Hneg. replace length with 0 by lia. cbn [bind].
  now destruct (uniform rng (-1) 1).
Qed.

End FirstElement.

(** X12.  Neither generator returns a pattern of length zero or less: for a
    negative length [np.zeros] raises [ValueError], and for length 0 the
    assignment to [pattern[0]] raises [IndexError], for every seed (for
    [generate_audio_fractal_pattern], every seed whose first eight
    characters are a hexadecimal literal). *)
Theorem generators_reject_empty_lengths `{Py : Python} `{Rng : NumpyRandom}
    (secret : HashSecret) (seed fractal_seed : string) (n : Z) :
  n <= 0 ->
  generate_fractal_pattern secret seed n
  = Raise (if n <? 0 then ValueError else IndexError)
  /\ (forall k, py_int16 (substring 0 8 fractal_seed) = Ok k ->
      generate_audio_fractal_pattern fractal_seed n
      = Raise (if n <? 0 then ValueError else IndexError)).
Proof.
  intros Hn. split.
  - unfold generate_fractal_pattern. rewrite new_RandomState_mod. cbn [bind].
    now apply midpoint_displacement_short.
  - intros k Hk. unfold generate_audio_fractal_pattern.
    rewrite Hk. cbn [bind]. rewrite new_RandomState_mod. cbn [bind].
    now apply midpoint_displacement_short.
Qed.

Lemma generators_reject_empty_lengths_witness :
  0 <= 0
  /\ generate_fractal_pattern (Py := CPython.python)
       (Rng := MT19937.numpy_random) (CPython.secret_of_PYTHONHASHSEED 0)
       "artist_fractal_seed_123" 0
     = Raise IndexError
  /\ generate_audio_fractal_pattern (Py := CPython.python)
       (Rng := MT19937.numpy_random) "9f86d081884c7d65" 0
     = Raise IndexError.
Proof.
  split; [lia|].
  destruct (generators_reject_empty_lengths (Py := CPython.python)
              (Rng := MT19937.numpy_random)
              (CPython.secret_of_PYTHONHASHSEED 0)
              "artist_fractal_seed_123" "9f86d081884c7d65" 0 ltac:(lia))
    as [Hgen Haudio].
  split; [exact Hgen|].
  apply (Haudio 0x9f86d081). reflexivity.
Defined.



(** X14.  [generate_audio_fractal_pattern] looks at the first eight
    characters of its seed only, and at their value as a hexadecimal
    number modulo [2**32]: two seeds whose prefixes have the same value
    give the same pattern, whatever follows the prefix. *)
Theorem generate_audio_fractal_pattern_prefix `{Py : Python}
    `{Rng : NumpyRandom} (seed1 seed2 : string) (k1 k2 : Z) (n : Z) :
  py_int16 (substring 0 8 seed1) = Ok k1 ->
  py_int16 (substring 0 8 seed2) = Ok k2 ->
  k1 mod 2 ^ 32 = k2 mod 2 ^ 32 ->
  generate_audio_fractal_pattern seed1 n
  = generate_audio_fractal_pattern seed2 n.
Proof.
  intros H1 H2 Hk. unfold generate_audio_fractal_pattern.
  rewrite H1, H2. cbn [bind]. now rewrite Hk.
Qed.

Lemma generate_audio_fractal_pattern_prefix_witness :
  generate_audio_fractal_pattern (Py := CPython.python)
    (Rng := MT19937.numpy_random) "9f86d081884c7d65" 100
  = generate_audio_fractal_pattern (Py := CPython.python)
      (Rng := MT19937.numpy_random) "9F86D081ffffffff" 100.
Proof.
  apply (generate_audio_fractal_pattern_prefix (Py := CPython.python)
           (Rng := MT19937.numpy_random) "9f86d081884c7d65"
           "9F86D081ffffffff" 0x9f86d081 0x9f86d081 100);
    reflexivity.
Defined.

(** ** The time-shift encoder followed by the detector *)

(** X15.  The detector scores every full chunk of a buffer that
    [encode_timing_fractal] returned: run on an audio buffer and its
    encoding with the chunk size 512 of the encoder, [detect_timing_fractal]
    returns without an exception, with [len(audio) // 512] scores, the
    encoding having the length of the audio. *)
Theorem detect_timing_after_encode `{Py : Python} `{Rng : NumpyRandom}
    `{St : NumpyStats} (secret : HashSecret) (seed : string)
    (audio fractal_pattern : list float) (max_shift_ms : option float)
    (encoded : list float) :
  encode_timing_fractal audio fractal_pattern max_shift_ms = Ok encoded ->
  exists scores,
    detect_timing_fractal secret audio encoded seed 512
    = Ok (np_mean scores, scores)
    /\ len scores = len audio / 512.
Proof.
  intros H. apply encode_timing_fractal_Ok in H.
  destruct H as [max_shift [peak [_ [_ H]]]].
  assert (Hlen : length encoded = length audio).
  { eapply chunk_loop_length;
      [apply encode_timing_chunk_appends | lia | exact H]. }
  destruct (detect_timing_fractal_run secret seed audio encoded 512
              ltac:(lia)) as [scores [Hrun Hcount]].
  exists scores. split; [exact Hrun|].
  rewrite Hcount. unfold len. rewrite Hlen. now rewrite Z.min_id.
Qed.

Lemma detect_timing_after_encode_witness :
  exists encoded scores,
    encode_timing_fractal short_sawtooth sample_pattern None = Ok encoded
    /\ detect_timing_fractal (Py := CPython.python)
         (Rng := MT19937.numpy_random) (St := ReferenceStats.numpy_stats)
         (CPython.secret_of_PYTHONHASHSEED 0) short_sawtooth encoded
         "artist_fractal_seed_123" 512
       = Ok (Reference.mean scores, scores)
    /\ len scores = len short_sawtooth / 512.
Proof.
  eexists.
  destruct (detect_timing_after_encode (Py := CPython.python)
              (Rng := MT19937.numpy_random)
              (St := ReferenceStats.numpy_stats)
              (CPython.secret_of_PYTHONHASHSEED 0) "artist_fractal_seed_123"
              short_sawtooth sample_pattern None _
              ltac:(vm_compute; reflexivity))
    as [scores [Hrun Hcount]].
  exists scores. split; [reflexivity|]. split; [exact Hrun | exact Hcount].
Defined.
